(** * torch.distributed.nn.api.remote_module

    A shallow embedding of [remote_module.py]: the name allocator
    [_gen_global_unique_name], the template instantiator
    [_instantiate_template], the remote-side handler
    [_script_module_creator_wrapper] and the constructor function
    [RemoteModule], followed by the properties of the construction
    protocol.

    The Python code talks to collaborators that live outside the file (the
    RPC layer, the code generator of [instantiator], TorchScript).  They are
    interfaces here: every call to one of them goes through a type class
    method that may raise, and is written to a log together with its
    outcome, so that the order of the calls can be stated. *)

From Stdlib Require Import String Ascii List ZArith Lia.
From Stdlib Require Import DecimalString DecimalNat.
From stdpp Require Import base option list gmap strings.

#[local] Arguments String.append : simpl never.

Import ListNotations.
Local Open Scope string_scope.
Local Open Scope list_scope.

Set Warnings "-register-all".

(** ** Python values *)

(** The values that travel as arguments and attributes.  [VFunc] is a
    method seen through its parameter names, [VObj] any other object. *)
Inductive PyVal : Type :=
| VNone
| VBool (b : bool)
| VInt (z : Z)
| VStr (s : string)
| VTuple (items : list PyVal)
| VFunc (params : list string)
| VObj (oid : nat).

(** Truth value testing, as [if is_scriptable:] applies it. *)
Definition truthy (v : PyVal) : bool :=
  match v with
  | VNone => false
  | VBool b => b
  | VInt z => negb (Z.eqb z 0)
  | VStr s => negb (String.eqb s "")
  | VTuple items => match items with [] => false | _ :: _ => true end
  | VFunc _ => true
  | VObj _ => true
  end.

(** A class object, seen through its name and its attribute dictionary. *)
Record PyClass : Type := mkClass {
  cls_name : string;
  cls_attrs : gmap string PyVal
}.

(** [getattr(o, name, default)]; [o] is [None] (which has no such
    attribute) or a class object. *)
Definition getattr (o : option PyClass) (name : string) (dflt : PyVal) : PyVal :=
  match o with
  | None => dflt
  | Some c => default dflt (cls_attrs c !! name)
  end.
Arguments getattr : simpl never.

(** A function object: its qualified name and its declared return type. *)
Record Callable : Type := mkCallable {
  fn_qualname : string;
  fn_return_annotation : option PyClass
}.

(** Exceptions, by class name and message. *)
Record exn : Type := Exn {
  exn_class : string;
  exn_msg : string
}.

Inductive Result (A : Type) : Type :=
| Ok (a : A)
| Raise (e : exn).
Arguments Ok {A} a.
Arguments Raise {A} e.

Definition is_ok {A} (r : Result A) : bool :=
  match r with Ok _ => true | Raise _ => false end.

(** ** Objects of the RPC layer and of the code generator *)

Record Future : Type := mkFuture { fut_id : nat }.

Record RRef : Type := mkRRef {
  rref_owner : string;
  rref_id : nat;
  rref_type_hint : option PyClass
}.

(** How a generated method forwards: [forward] blocks, [forward_async]
    returns a future. *)
Inductive CallMode : Type := Blocking | Async.

Record Forwarder : Type := mkForwarder {
  fw_name : string;
  fw_params : list string;
  fw_mode : CallMode
}.

(** The generated class [_RemoteModule] of one generated module. *)
Record RemoteModuleCls : Type := mkCls {
  rm_module : string;
  rm_interface : option PyClass;
  rm_scriptable : PyVal;
  rm_methods : list Forwarder
}.

Record GeneratedModule : Type := mkGenerated {
  gm_name : string;
  _RemoteModule : RemoteModuleCls
}.

(** An instance of a generated class: what [RemoteModule] returns. *)
Record RemoteModuleInst : Type := mkInst {
  inst_cls : RemoteModuleCls;
  inst_rref : RRef;
  inst_scriptable : PyVal
}.

(** The two functions of this file that are sent over RPC, with the
    arguments they are sent with. *)
Inductive RpcHandler : Type :=
| H_instantiate_template
    (global_unique_name : string) (module_interface_cls : option PyClass)
    (is_scriptable : PyVal)
| H_script_module_creator_wrapper
    (module_creator : Callable) (module_interface_cls : option PyClass)
    (args : list PyVal) (kwargs : gmap string PyVal).

(** ** The log of calls to collaborators *)

Inductive Event : Type :=
| E_is_current_rpc_agent_set (b : bool)
| E_get_worker_name (r : Result string)
| E_get_return_type_from_callable (f : Callable) (r : Result (option PyClass))
| E_instantiate_remote_module_template
    (generated_module_name : string) (iface : option PyClass) (flag : PyVal)
    (r : Result GeneratedModule)
| E_rpc_async (to : string) (h : RpcHandler) (r : Result Future)
| E_rpc_sync (to : string) (h : RpcHandler) (r : Result RRef)
| E_rpc_remote (to : string) (f : Callable) (args : list PyVal)
    (kwargs : gmap string PyVal) (r : Result RRef)
| E_new_instance (cls : RemoteModuleCls) (rref : RRef) (flag : PyVal)
    (r : Result RemoteModuleInst)
| E_wait (fut : Future) (r : Result unit)
| E_call (f : Callable) (args : list PyVal) (kwargs : gmap string PyVal)
    (r : Result PyVal)
| E_jit_script (module : PyVal) (r : Result PyVal)
| E_RRef (value : PyVal) (type_hint : option PyClass) (r : Result RRef).

(** An event that leaves the node: a call of the RPC layer. *)
Definition is_network (e : Event) : bool :=
  match e with
  | E_rpc_async _ _ _ | E_rpc_sync _ _ _ | E_rpc_remote _ _ _ _ _ | E_wait _ _ => true
  | _ => false
  end.

Definition is_rpc_sync (e : Event) : bool :=
  match e with E_rpc_sync _ _ _ => true | _ => false end.

Definition is_rpc_remote (e : Event) : bool :=
  match e with E_rpc_remote _ _ _ _ _ => true | _ => false end.

(** ** The interpreter state and its monad *)

(** One Python process: the world of its collaborators and the module
    global [_NEXT_LOCAL_ID]. *)
Record St (W : Type) : Type := mkSt {
  world : W;
  _NEXT_LOCAL_ID : nat
}.
Arguments mkSt {W} _ _.
Arguments world {W} _.
Arguments _NEXT_LOCAL_ID {W} _.

(** What a computation leaves behind: the value it returns or the
    exception it raises, the state it ends in, and the calls it made to
    collaborators, oldest first. *)
Record Outcome (W A : Type) : Type := mkOutcome {
  result : Result A;
  final : St W;
  trace : list Event
}.
Arguments mkOutcome {W A} _ _ _.
Arguments result {W A} _.
Arguments final {W A} _.
Arguments trace {W A} _.

Definition M (W A : Type) : Type := St W -> Outcome W A.

Definition ret {W A} (a : A) : M W A := fun s => mkOutcome (Ok a) s [].

Definition raise {W A} (e : exn) : M W A := fun s => mkOutcome (Raise e) s [].

Definition bind {W A B} (m : M W A) (k : A -> M W B) : M W B :=
  fun s =>
    match m s with
    | mkOutcome (Ok a) s1 t1 =>
        match k a s1 with
        | mkOutcome r s2 t2 => mkOutcome r s2 (t1 ++ t2)
        end
    | mkOutcome (Raise e) s1 t1 => mkOutcome (Raise e) s1 t1
    end.

Notation "'let*' x ':=' m 'in' k" := (bind m (fun x => k))
  (at level 10, x name, m at level 100, k at level 200).

(** A call to a collaborator that may change the world: run it, log it
    with its outcome. *)
Definition call_out {W A} (op : W -> Result A * W) (ev : Result A -> Event) : M W A :=
  fun s =>
    match op (world s) with
    | (r, w') => mkOutcome r (mkSt w' (_NEXT_LOCAL_ID s)) [ev r]
    end.

(** A call to a collaborator that only reads the world. *)
Definition read_out {W A} (op : W -> Result A) (ev : Result A -> Event) : M W A :=
  call_out (fun w => (op w, w)) ev.

(** A read of the world that cannot raise, logged. *)
Definition ask {W A} (op : W -> A) (ev : A -> Event) : M W A :=
  fun s => mkOutcome (Ok (op (world s))) s [ev (op (world s))].

(** [local_unique_id = _NEXT_LOCAL_ID; _NEXT_LOCAL_ID += 1]. *)
Definition fetch_and_increment {W} : M W nat :=
  fun s =>
    mkOutcome (Ok (_NEXT_LOCAL_ID s))
              (mkSt (world s) (_NEXT_LOCAL_ID s + 1)) [].

(** [assert cond, msg]. *)
Definition assert_ {W} (cond : bool) (msg : string) : M W unit :=
  if cond then ret tt else raise (Exn "AssertionError" msg).

(** ** The collaborators *)

(** What a node runs itself: the state of its RPC agent, the code
    generator of [torch.distributed.nn.jit.instantiator], the call of a
    module creator, [torch.jit.script], the constructor of [rpc.RRef] and
    the constructor of a generated class.

    - [_is_current_rpc_agent_set] is [rpc._is_current_rpc_agent_set()],
      a test that does not raise;
    - [get_worker_name] is
      [rpc._get_current_rpc_agent().get_worker_info().name], which raises
      when there is no agent;
    - [new_instance cls rref flag] is the call [cls(rref, flag)] of a
      generated class.

    Each of the others takes the arguments of its Python namesake; every
    one that can raise returns a [Result], and every one that can change
    the node returns the node. *)
Class NodeEnv (W : Type) : Type := {
  _is_current_rpc_agent_set : W -> bool;
  get_worker_name : W -> Result string;
  get_return_type_from_callable : Callable -> W -> Result (option PyClass);
  instantiate_remote_module_template :
    string -> option PyClass -> PyVal -> W -> Result GeneratedModule * W;
  call_creator :
    Callable -> list PyVal -> gmap string PyVal -> W -> Result PyVal * W;
  jit_script : PyVal -> W -> Result PyVal * W;
  RRef_new : PyVal -> option PyClass -> W -> Result RRef * W;
  new_instance :
    RemoteModuleCls -> RRef -> PyVal -> W -> Result RemoteModuleInst * W
}.

(** The RPC layer: [rpc.rpc_async], [rpc.rpc_sync], [rpc.remote] and the
    [wait] of a future.  [rpc_sync] returns what its handler returns; the
    one handler this file sends synchronously returns an [rpc.RRef], hence
    the type.  The value a future resolves to is not used by this file, so
    [fut_wait] returns no value, only whether it raised. *)
Class RpcLayer (W : Type) : Type := {
  rpc_async : string -> RpcHandler -> W -> Result Future * W;
  rpc_sync : string -> RpcHandler -> W -> Result RRef * W;
  rpc_remote :
    string -> Callable -> list PyVal -> gmap string PyVal -> W -> Result RRef * W;
  fut_wait : Future -> W -> Result unit * W
}.

(** ** Formatting *)

(** [str(n)] of a non-negative integer. *)
Definition str_of_nat (n : nat) : string :=
  NilEmpty.string_of_uint (Nat.to_uint n).

(** ** The functions of remote_module.py *)

Section Program.
Context {W : Type} `{NodeEnv W}.

(** [_gen_global_unique_name]: read and increment the counter (the body
    of the [with] block, which nothing interrupts here; the interleaved
    version is [Alloc.step]), then read the name of this worker.  The
    counter is a Python integer that starts at 0 and only grows: a [nat]. *)
Definition _gen_global_unique_name : M W string :=
  let* local_unique_id := fetch_and_increment in
  let* self_worker_name := read_out get_worker_name E_get_worker_name in
  ret (self_worker_name +:+ "_" +:+ str_of_nat local_unique_id).

(** [_instantiate_template]: the module name is the prefix and the global
    name; the class is the attribute [_RemoteModule] of the generated
    module. *)
Definition _instantiate_template
    (global_unique_name : string) (module_interface_cls : option PyClass)
    (is_scriptable : PyVal) : M W RemoteModuleCls :=
  let generated_module_name := "_RemoteModule_" +:+ global_unique_name in
  let* generated_module :=
    call_out
      (instantiate_remote_module_template
         generated_module_name module_interface_cls is_scriptable)
      (E_instantiate_remote_module_template
         generated_module_name module_interface_cls is_scriptable) in
  let remote_module_cls := _RemoteModule generated_module in
  ret remote_module_cls.

(** [_script_module_creator_wrapper]: what the remote node runs on the
    scriptable path. *)
Definition _script_module_creator_wrapper
    (module_creator : Callable) (module_interface_cls : option PyClass)
    (args : list PyVal) (kwargs : gmap string PyVal) : M W RRef :=
  let* module :=
    call_out (call_creator module_creator args kwargs)
             (E_call module_creator args kwargs) in
  let* script_module := call_out (jit_script module) (E_jit_script module) in
  call_out (RRef_new script_module module_interface_cls)
           (E_RRef script_module module_interface_cls).

Context `{RpcLayer W}.

(** [RemoteModule]: a missing argument is [None]. *)
Definition RemoteModule
    (to : string) (module_creator : Callable)
    (args : option (list PyVal)) (kwargs : option (gmap string PyVal))
    (global_unique_name : option string)
    (module_interface_cls : option PyClass) : M W RemoteModuleInst :=
  (* Sanity checks. *)
  let* agent_set :=
    ask _is_current_rpc_agent_set E_is_current_rpc_agent_set in
  let* _ := assert_ agent_set "RemoteModule only works in RPC." in
  (* Default arguments preparation. *)
  let args := match args with Some a => a | None => [] end in
  let kwargs := match kwargs with Some k => k | None => ∅ end in
  let* global_unique_name :=
    match global_unique_name with
    | Some name => ret name
    | None => _gen_global_unique_name
    end in
  (* Infer module_interface type. *)
  let* module_interface_cls :=
    match module_interface_cls with
    | Some c => ret (Some c)
    | None =>
        read_out (get_return_type_from_callable module_creator)
                 (E_get_return_type_from_callable module_creator)
    end in
  let is_scriptable :=
    getattr module_interface_cls "__torch_script_interface__" (VBool false) in
  (* Instantiate template on remote side. *)
  let* fut :=
    (let h := H_instantiate_template
                global_unique_name module_interface_cls is_scriptable in
     call_out (rpc_async to h) (E_rpc_async to h)) in
  (* Instantiate template on local side. *)
  let* remote_module_cls :=
    _instantiate_template global_unique_name module_interface_cls is_scriptable in
  (* Create the module on the remote side. *)
  let* module_rref :=
    if truthy is_scriptable then
      (let h := H_script_module_creator_wrapper
                  module_creator module_interface_cls args kwargs in
       call_out (rpc_sync to h) (E_rpc_sync to h))
    else
      call_out (rpc_remote to module_creator args kwargs)
               (E_rpc_remote to module_creator args kwargs) in
  (* Create remote_module_cls instance on local side. *)
  let* remote_module :=
    call_out (new_instance remote_module_cls module_rref is_scriptable)
             (E_new_instance remote_module_cls module_rref is_scriptable) in
  let* _ := call_out (fut_wait fut) (E_wait fut) in
  ret remote_module.

(** What the receiving node runs for a handler sent to it. *)
Definition run_handler (h : RpcHandler) : M W (RemoteModuleCls + RRef) :=
  match h with
  | H_instantiate_template n c f =>
      let* cls := _instantiate_template n c f in ret (inl cls)
  | H_script_module_creator_wrapper mc c a k =>
      let* r := _script_module_creator_wrapper mc c a k in ret (inr r)
  end.
End Program.

(** ** A fake mesh of nodes *)

(** An instrumented fake of the collaborators, for running the functions
    above on concrete inputs: nodes with a registry of generated modules
    and a table of remote references, and a mesh that carries handlers
    from the calling node to its peers.  Its RPC layer stands for
    [torch.distributed.rpc] and follows what the spec says of it. *)

(** What a node holds behind a remote reference: a value, or the creation
    that [rpc.remote] has asked for and that has not run yet. *)
Inductive Held : Type :=
| Holds (v : PyVal)
| Deferred (f : Callable) (args : list PyVal) (kwargs : gmap string PyVal).

Record Node : Type := mkNode {
  nd_agent : option string;
  nd_modules : gmap string GeneratedModule;
  nd_next_oid : nat;
  nd_rrefs : list (RRef * Held);
  nd_codegen_fault : option exn;
  nd_creator_fault : option exn;
  nd_script_fault : option exn
}.

(** Modelled from the spec: the forwarding methods that the templates of
    [torch.distributed.nn.jit] generate, which are not part of this file.
    Every method of the interface gets a blocking forwarder of the same
    name and parameters and an asynchronous one ("sync or async variant,
    mirrored 1:1", section 4.4). *)
Definition forwarders_of (iface : PyClass) : list Forwarder :=
  flat_map
    (fun kv =>
       match snd kv with
       | VFunc params =>
           [mkForwarder (fst kv) params Blocking;
            mkForwarder (fst kv +:+ "_async") params Async]
       | _ => []
       end)
    (map_to_list (cls_attrs iface)).

(** Modelled from the spec: [instantiator.instantiate_remote_module_template],
    which is not part of this file.  Given the name and the interface it
    produces the forwarding type as a function of its arguments and
    registers the generated module under the name (section 6, codegen
    backend); a missing interface or a fault of the generator raises
    TemplateGenerationError and registers nothing (section 4.2). *)
Definition node_instantiate_remote_module_template
    (generated_module_name : string) (iface : option PyClass) (flag : PyVal)
    (n : Node) : Result GeneratedModule * Node :=
  match iface, nd_codegen_fault n with
  | None, _ =>
      (Raise (Exn "TemplateGenerationError" "malformed interface"), n)
  | Some _, Some e => (Raise e, n)
  | Some c, None =>
      let generated_module :=
        mkGenerated generated_module_name
          (mkCls generated_module_name iface flag (forwarders_of c)) in
      (Ok generated_module,
       mkNode (nd_agent n)
              (<[generated_module_name := generated_module]> (nd_modules n))
              (nd_next_oid n) (nd_rrefs n)
              (nd_codegen_fault n) (nd_creator_fault n) (nd_script_fault n))
  end.

(** Modelled from the spec: [instantiator.get_return_type_from_callable],
    which is not part of this file: the interface is the declared return
    type of the factory, and a factory that declares none is an
    InterfaceInferenceError (section 4.3, step 2). *)
Definition node_get_return_type_from_callable
    (f : Callable) (n : Node) : Result (option PyClass) :=
  match fn_return_annotation f with
  | Some c => Ok (Some c)
  | None => Raise (Exn "InterfaceInferenceError" "no return annotation")
  end.

Definition fresh_object (n : Node) : PyVal * Node :=
  (VObj (nd_next_oid n),
   mkNode (nd_agent n) (nd_modules n) (S (nd_next_oid n)) (nd_rrefs n)
          (nd_codegen_fault n) (nd_creator_fault n) (nd_script_fault n)).

Definition node_call_creator
    (f : Callable) (args : list PyVal) (kwargs : gmap string PyVal)
    (n : Node) : Result PyVal * Node :=
  match nd_creator_fault n with
  | Some e => (Raise e, n)
  | None => let ov := fresh_object n in (Ok (fst ov), snd ov)
  end.

Definition node_jit_script (module : PyVal) (n : Node) : Result PyVal * Node :=
  match nd_script_fault n with
  | Some e => (Raise e, n)
  | None => let ov := fresh_object n in (Ok (fst ov), snd ov)
  end.

Definition add_rref (r : RRef) (h : Held) (n : Node) : Node :=
  mkNode (nd_agent n) (nd_modules n) (nd_next_oid n) (nd_rrefs n ++ [(r, h)])
         (nd_codegen_fault n) (nd_creator_fault n) (nd_script_fault n).

Definition node_RRef_new
    (v : PyVal) (type_hint : option PyClass) (n : Node) : Result RRef * Node :=
  match nd_agent n with
  | None => (Raise (Exn "RuntimeError" "RPC has not been initialized"), n)
  | Some me =>
      let r := mkRRef me (length (nd_rrefs n)) type_hint in
      (Ok r, add_rref r (Holds v) n)
  end.

#[export] Instance Node_env : NodeEnv Node := {
  _is_current_rpc_agent_set n := match nd_agent n with Some _ => true | None => false end;
  get_worker_name n :=
    match nd_agent n with
    | Some me => Ok me
    | None => Raise (Exn "RuntimeError" "RPC has not been initialized")
    end;
  get_return_type_from_callable := node_get_return_type_from_callable;
  instantiate_remote_module_template := node_instantiate_remote_module_template;
  call_creator := node_call_creator;
  jit_script := node_jit_script;
  RRef_new := node_RRef_new;
  new_instance cls rref flag n := (Ok (mkInst cls rref flag), n)
}.

(** A peer is a Python process of its own: its state, and the log of the
    calls its handlers made. *)
Record Peer : Type := mkPeer {
  peer_state : St Node;
  peer_trace : list Event
}.

(** A future of the fake: the request still on its way, or its outcome. *)
Inductive FutureState : Type :=
| Queued (to : string) (h : RpcHandler)
| Resolved (r : Result unit).

(** The calling node, its peers by worker name, and the futures issued so
    far.  [eager] chooses when an asynchronous handler runs on its peer:
    when the request is sent, or when the future is waited for. *)
Record Mesh : Type := mkMesh {
  here : Node;
  peers : gmap string Peer;
  eager : bool;
  futures : list FutureState
}.

Definition unknown_worker : exn := Exn "RuntimeError" "Unknown destination worker".

(** Run a handler on the peer [to]. *)
Definition deliver (to : string) (h : RpcHandler) (m : Mesh)
    : Result (RemoteModuleCls + RRef) * Mesh :=
  match peers m !! to with
  | None => (Raise unknown_worker, m)
  | Some p =>
      let o := run_handler h (peer_state p) in
      (result o,
       mkMesh (here m)
              (<[to := mkPeer (final o) (peer_trace p ++ trace o)]> (peers m))
              (eager m) (futures m))
  end.

Definition forget {A} (r : Result A) : Result unit :=
  match r with Ok _ => Ok tt | Raise e => Raise e end.

(** Modelled from the spec: [rpc.rpc_async] of [torch.distributed.rpc],
    which is not part of this file: "an asynchronous call primitive
    asyncCall(target, handler, args) -> Future" (section 6), which
    "return[s] a future/promise immediately, resolved by the RPC runtime"
    (section 5).  The handler runs on the target at once or when the
    future is waited for; either way the caller has its future. *)
Definition mesh_rpc_async (to : string) (h : RpcHandler) (m : Mesh)
    : Result Future * Mesh :=
  match peers m !! to with
  | None => (Raise unknown_worker, m)
  | Some _ =>
      if eager m then
        let rm := deliver to h m in
        (Ok (mkFuture (length (futures m))),
         mkMesh (here (snd rm)) (peers (snd rm)) (eager m)
                (futures m ++ [Resolved (forget (fst rm))]))
      else
        (Ok (mkFuture (length (futures m))),
         mkMesh (here m) (peers m) (eager m) (futures m ++ [Queued to h]))
  end.

(** Modelled from the spec: [wait] of a future of [torch.distributed.rpc],
    which is not part of this file: it blocks "until it resolves (or
    raises)" (section 4.3, step 8), with the outcome of the handler. *)
Definition mesh_fut_wait (f : Future) (m : Mesh) : Result unit * Mesh :=
  match futures m !! fut_id f with
  | None => (Raise (Exn "RuntimeError" "no such future"), m)
  | Some (Resolved r) => (r, m)
  | Some (Queued to h) =>
      let rm := deliver to h m in
      (forget (fst rm),
       mkMesh (here (snd rm)) (peers (snd rm)) (eager m)
              (<[fut_id f := Resolved (forget (fst rm))]> (futures m)))
  end.

(** Modelled from the spec: [rpc.rpc_sync] of [torch.distributed.rpc],
    which is not part of this file: "a synchronous call primitive
    syncCall(target, handler, args) -> Result" (section 6), which blocks
    "until remote completion" (section 5). *)
Definition mesh_rpc_sync (to : string) (h : RpcHandler) (m : Mesh)
    : Result RRef * Mesh :=
  let rm := deliver to h m in
  (match fst rm with
   | Ok (inr rref) => Ok rref
   | Ok (inl _) => Raise (Exn "TypeError" "not a remote reference")
   | Raise e => Raise e
   end, snd rm).

(** Modelled from the spec: [rpc.remote] of [torch.distributed.rpc], which
    is not part of this file: "a deferred-creation primitive
    remoteCreate(target, factory, args, kwargs) -> ReferenceHandle that
    returns a handle without waiting for factory to finish" (section 6).
    The owner notes the creation it was asked for and the reference comes
    back at once: the factory has not been called. *)
Definition mesh_rpc_remote
    (to : string) (f : Callable) (args : list PyVal)
    (kwargs : gmap string PyVal) (m : Mesh) : Result RRef * Mesh :=
  match peers m !! to with
  | None => (Raise unknown_worker, m)
  | Some p =>
      let n := world (peer_state p) in
      let r := mkRRef to (length (nd_rrefs n)) None in
      let p' := mkPeer (mkSt (add_rref r (Deferred f args kwargs) n)
                             (_NEXT_LOCAL_ID (peer_state p)))
                       (peer_trace p) in
      (Ok r, mkMesh (here m) (<[to := p']> (peers m)) (eager m) (futures m))
  end.

Definition on_here {A} (op : Node -> Result A * Node) (m : Mesh) : Result A * Mesh :=
  let rn := op (here m) in
  (fst rn, mkMesh (snd rn) (peers m) (eager m) (futures m)).

#[export] Instance Mesh_env : NodeEnv Mesh := {
  _is_current_rpc_agent_set m := _is_current_rpc_agent_set (here m);
  get_worker_name m := get_worker_name (here m);
  get_return_type_from_callable f m := get_return_type_from_callable f (here m);
  instantiate_remote_module_template name iface flag :=
    on_here (instantiate_remote_module_template name iface flag);
  call_creator f args kwargs := on_here (call_creator f args kwargs);
  jit_script v := on_here (jit_script v);
  RRef_new v hint := on_here (RRef_new v hint);
  new_instance cls rref flag := on_here (new_instance cls rref flag)
}.

#[export] Instance Mesh_rpc : RpcLayer Mesh := {
  rpc_async := mesh_rpc_async;
  rpc_sync := mesh_rpc_sync;
  rpc_remote := mesh_rpc_remote;
  fut_wait := mesh_fut_wait
}.

(** *** Reading a mesh *)

(** The calls of a factory among logged calls. *)
Definition is_factory_call (ev : Event) : bool :=
  match ev with E_call _ _ _ _ => true | _ => false end.

(** The factory calls that the peer [name] of a mesh has made so far. *)
Definition factory_calls_on (name : string) (m : Mesh) : list Event :=
  match peers m !! name with
  | Some p => List.filter is_factory_call (peer_trace p)
  | None => []
  end.

(** The peer [name] holds [h] behind the reference [r]. *)
Definition held_on (name : string) (m : Mesh) (r : RRef) (h : Held) : Prop :=
  exists p,
    peers m !! name = Some p /\ In (r, h) (nd_rrefs (world (peer_state p))).

(** A future that stands for a request of [_instantiate_template], or
    that has its outcome already. *)
Definition template_future (st : FutureState) : Prop :=
  match st with
  | Queued _ (H_instantiate_template _ _ _) => True
  | Queued _ (H_script_module_creator_wrapper _ _ _ _) => False
  | Resolved _ => True
  end.

(** No factory was called between [m0] and [m1], and what the peers held
    they still hold. *)
Definition undisturbed (m0 m1 : Mesh) : Prop :=
  (forall name, factory_calls_on name m1 = factory_calls_on name m0) /\
  (forall name r h, held_on name m0 r h -> held_on name m1 r h).

(** *** Concrete inputs *)

Definition forward_sig : PyVal := VFunc ["self"; "x"].

(** An interface declared with [@torch.jit.interface]. *)
Definition MyModuleInterface : PyClass :=
  mkClass "MyModuleInterface"
    (<["__torch_script_interface__" := VBool true]>
       (<["forward" := forward_sig]> ∅)).

(** A plain class, without the attribute. *)
Definition PlainInterface : PyClass :=
  mkClass "PlainInterface" (<["forward" := forward_sig]> ∅).

Definition create_module : Callable := mkCallable "create_module" (Some PlainInterface).

Definition create_script_module : Callable :=
  mkCallable "create_script_module" (Some MyModuleInterface).

Definition fresh_node (agent : option string) : Node :=
  mkNode agent ∅ 0 [] None None None.

Definition fresh_peer (name : string) : Peer :=
  mkPeer (mkSt (fresh_node (Some name)) 0) [].

(** worker0 calls, worker1 is its peer. *)
Definition mesh0 (eagerly : bool) : St Mesh :=
  mkSt (mkMesh (fresh_node (Some "worker0"))
               (<["worker1" := fresh_peer "worker1"]> ∅) eagerly [])
       0.

(** The same mesh with RPC not initialised on the calling node. *)
Definition mesh_no_rpc : St Mesh :=
  mkSt (mkMesh (fresh_node None)
               (<["worker1" := fresh_peer "worker1"]> ∅) false [])
       0.

(** The same mesh with a code generator that fails on worker1 only. *)
Definition mesh_remote_codegen_fault : St Mesh :=
  mkSt (mkMesh (fresh_node (Some "worker0"))
               (<["worker1" :=
                   mkPeer (mkSt (mkNode (Some "worker1") ∅ 0 [] 
                                        (Some (Exn "TemplateGenerationError" "codegen failed"))
                                        None None) 0) []]> ∅)
               false [])
       0.

(** The runs used as examples below. *)
Definition run_scriptable : Outcome Mesh RemoteModuleInst :=
  RemoteModule "worker1" create_script_module None None None None (mesh0 true).

Definition run_plain : Outcome Mesh RemoteModuleInst :=
  RemoteModule "worker1" create_module None None None None (mesh0 false).

Definition run_remote_fault : Outcome Mesh RemoteModuleInst :=
  RemoteModule "worker1" create_module None None None None
               mesh_remote_codegen_fault.

Definition run_no_rpc : Outcome Mesh RemoteModuleInst :=
  RemoteModule "worker1" create_module None None None None mesh_no_rpc.

(** The events looked for in the example runs. *)
Definition sent_template : Event :=
  E_rpc_async "worker1"
    (H_instantiate_template "worker0_0" (Some MyModuleInterface) (VBool true))
    (Ok (mkFuture 0)).

Definition sent_plain_template : Event :=
  E_rpc_async "worker1"
    (H_instantiate_template "worker0_0" (Some PlainInterface) (VBool false))
    (Ok (mkFuture 0)).

Definition sent_creation : Event :=
  E_rpc_sync "worker1"
    (H_script_module_creator_wrapper
       create_script_module (Some MyModuleInterface) [] ∅)
    (Ok (mkRRef "worker1" 0 (Some MyModuleInterface))).

Definition instantiated_locally : Event :=
  E_instantiate_remote_module_template
    "_RemoteModule_worker0_0" (Some MyModuleInterface) (VBool true)
    (Ok (mkGenerated "_RemoteModule_worker0_0"
           (mkCls "_RemoteModule_worker0_0" (Some MyModuleInterface) (VBool true)
              [mkForwarder "forward" ["self"; "x"] Blocking;
               mkForwarder "forward_async" ["self"; "x"] Async]))).

Definition instantiated_plain_locally : Event :=
  E_instantiate_remote_module_template
    "_RemoteModule_worker0_0" (Some PlainInterface) (VBool false)
    (Ok (mkGenerated "_RemoteModule_worker0_0"
           (mkCls "_RemoteModule_worker0_0" (Some PlainInterface) (VBool false)
              [mkForwarder "forward" ["self"; "x"] Blocking;
               mkForwarder "forward_async" ["self"; "x"] Async]))).

Definition sent_plain_creation : Event :=
  E_rpc_remote "worker1" create_module [] ∅ (Ok (mkRRef "worker1" 0 None)).

(** Two invocations of the allocator taking turns; the second waits for
    the lock while the first is inside the [with] block. *)
Definition taking_turns : list nat :=
  [0; 1; 0; 1; 0; 1; 0; 1; 0; 1; 0; 1; 1; 1; 1; 1; 1].

(** A node that has been up for a while. *)
Definition busy_node : St Node :=
  mkSt (mkNode (Some "worker1")
               (<["_RemoteModule_worker0_0" :=
                    mkGenerated "_RemoteModule_worker0_0"
                      (mkCls "_RemoteModule_worker0_0" None VNone [])]> ∅)
               7 [] None None None)
       5.

(** ** Concurrent invocations of the name allocator *)

(** [_gen_global_unique_name] once more, this time one atomic action at
    a time, so that several invocations can interleave.  The statement
    [_NEXT_LOCAL_ID += 1] is a load followed by a store. *)
Module Alloc.

(** Where an invocation stands, with its local variables. *)
Inductive Pc : Type :=
| AtAcquire
| AtRead
| AtLoad (local_unique_id : nat)
| AtStore (local_unique_id loaded : nat)
| AtRelease (local_unique_id : nat)
| AtName (local_unique_id : nat)
| Returned (name : string)
| Raised (e : exn).

(** The process: the global counter, the holder of
    [_NEXT_LOCAL_ID_LOCK], the name of the RPC agent, and the
    invocations in flight. *)
Record Proc : Type := mkProc {
  next_local_id : nat;
  lock : option nat;
  agent : option string;
  invocations : list Pc
}.

Definition set_pc (i : nat) (pc : Pc) (p : Proc) : Proc :=
  mkProc (next_local_id p) (lock p) (agent p) (<[i := pc]> (invocations p)).

(** One action of invocation [i].  An invocation that waits for the lock,
    or that has finished, does not move. *)
Definition step (i : nat) (p : Proc) : Proc :=
  match invocations p !! i with
  | None => p
  | Some AtAcquire =>
      match lock p with
      | None =>
          mkProc (next_local_id p) (Some i) (agent p)
                 (<[i := AtRead]> (invocations p))
      | Some _ => p
      end
  | Some AtRead => set_pc i (AtLoad (next_local_id p)) p
  | Some (AtLoad id) => set_pc i (AtStore id (next_local_id p)) p
  | Some (AtStore id loaded) =>
      mkProc (loaded + 1) (lock p) (agent p)
             (<[i := AtRelease id]> (invocations p))
  | Some (AtRelease id) =>
      mkProc (next_local_id p) None (agent p)
             (<[i := AtName id]> (invocations p))
  | Some (AtName id) =>
      match agent p with
      | Some self_worker_name =>
          set_pc i (Returned (self_worker_name +:+ "_" +:+ str_of_nat id)) p
      | None =>
          set_pc i (Raised (Exn "RuntimeError" "RPC has not been initialized")) p
      end
  | Some (Returned _) => p
  | Some (Raised _) => p
  end.

(** A schedule names the invocation that moves next. *)
Definition run (schedule : list nat) (p : Proc) : Proc :=
  foldl (fun q i => step i q) p schedule.

(** [n] invocations that have just been called. *)
Definition start (counter : nat) (self_worker_name : option string) (n : nat) : Proc :=
  mkProc counter None self_worker_name (replicate n AtAcquire).

Definition in_critical_section (pc : Pc) : bool :=
  match pc with
  | AtRead | AtLoad _ | AtStore _ _ | AtRelease _ => true
  | _ => false
  end.

(** The counter value behind what an invocation holds: the local variable,
    or the number at the end of the name it returned. *)
Definition owns (self_worker_name : option string) (pc : Pc) (id : nat) : Prop :=
  match pc with
  | AtLoad x | AtStore x _ | AtRelease x | AtName x => x = id
  | Returned name =>
      exists me, self_worker_name = Some me /\ name = me +:+ "_" +:+ str_of_nat id
  | _ => False
  end.

(** An invocation between its read of the counter and its store. *)
Definition before_store (pc : Pc) : bool :=
  match pc with AtLoad _ | AtStore _ _ => true | _ => false end.

(** One action of invocation [i], as a relation: from where to where, and
    the counter and the lock afterwards. *)
Inductive Moves (i : nat) (p : Proc) : Pc -> Pc -> nat -> option nat -> Prop :=
| Move_acquire :
    lock p = None ->
    Moves i p AtAcquire AtRead (next_local_id p) (Some i)
| Move_read :
    Moves i p AtRead (AtLoad (next_local_id p)) (next_local_id p) (lock p)
| Move_load id :
    Moves i p (AtLoad id) (AtStore id (next_local_id p)) (next_local_id p) (lock p)
| Move_store id loaded :
    Moves i p (AtStore id loaded) (AtRelease id) (loaded + 1) (lock p)
| Move_release id :
    Moves i p (AtRelease id) (AtName id) (next_local_id p) None
| Move_return id me :
    agent p = Some me ->
    Moves i p (AtName id) (Returned (me +:+ "_" +:+ str_of_nat id))
          (next_local_id p) (lock p)
| Move_raise id :
    agent p = None ->
    Moves i p (AtName id)
          (Raised (Exn "RuntimeError" "RPC has not been initialized"))
          (next_local_id p) (lock p).

(** What holds of every process that [run] reaches from [start]: only the
    holder of the lock is inside the [with] block; a value taken before
    the store is the counter, and the counter is past every other value
    taken; and no two invocations hold the same value. *)
Record Inv (p : Proc) : Prop := mkInv {
  inv_lock : forall i pc,
    invocations p !! i = Some pc -> in_critical_section pc = true ->
    lock p = Some i;
  inv_bound : forall i pc id,
    invocations p !! i = Some pc -> owns (agent p) pc id ->
    if before_store pc then id = next_local_id p else id < next_local_id p;
  inv_loaded : forall i id loaded,
    invocations p !! i = Some (AtStore id loaded) -> loaded = next_local_id p;
  inv_distinct : forall i j pci pcj idi idj,
    i <> j ->
    invocations p !! i = Some pci -> invocations p !! j = Some pcj ->
    owns (agent p) pci idi -> owns (agent p) pcj idj ->
    idi <> idj;
  inv_returned : forall i name,
    invocations p !! i = Some (Returned name) ->
    exists id, owns (agent p) (Returned name) id
}.

End Alloc.

(** ** Reading a trace *)

(** The exception a logged call ended with, if it raised. *)
Definition exn_of {A} (r : Result A) : option exn :=
  match r with Ok _ => None | Raise e => Some e end.

Definition raised_by (ev : Event) : option exn :=
  match ev with
  | E_is_current_rpc_agent_set _ => None
  | E_get_worker_name r => exn_of r
  | E_get_return_type_from_callable _ r => exn_of r
  | E_instantiate_remote_module_template _ _ _ r => exn_of r
  | E_rpc_async _ _ r => exn_of r
  | E_rpc_sync _ _ r => exn_of r
  | E_rpc_remote _ _ _ _ r => exn_of r
  | E_new_instance _ _ _ r => exn_of r
  | E_wait _ r => exn_of r
  | E_call _ _ _ r => exn_of r
  | E_jit_script _ r => exn_of r
  | E_RRef _ _ r => exn_of r
  end.

(** The reference a creation request on the remote side came back with:
    the synchronous RPC of the scriptable path or [rpc.remote]. *)
Definition yields (ev : Event) : option RRef :=
  match ev with
  | E_rpc_sync _ _ (Ok r) => Some r
  | E_rpc_remote _ _ _ _ (Ok r) => Some r
  | _ => None
  end.

Definition is_creation (ev : Event) : bool := is_rpc_sync ev || is_rpc_remote ev.

Definition local_only (tr : list Event) : bool :=
  forallb (fun ev => negb (is_network ev)) tr.

(** ** The runs of RemoteModule, case by case *)

(** [RemoteModule] is straight-line code: a run is told by the call at
    which it stops.  The relation below lists the runs from a state [s],
    one constructor per exit; the theorems are read off it. *)
Section Runs.
Context {W : Type} `{NodeEnv W} `{RpcLayer W}.
Variables (to : string) (module_creator : Callable).
Variables (args : option (list PyVal)) (kwargs : option (gmap string PyVal)).
Variables (global_unique_name : option string).
Variables (module_interface_cls : option PyClass).
Variable s : St W.

Definition assertion_error : exn :=
  Exn "AssertionError" "RemoteModule only works in RPC.".

(** The calls that settle the name, the name, and the counter afterwards. *)
Inductive NameResolved : list Event -> string -> nat -> Prop :=
| Name_given name :
    global_unique_name = Some name ->
    NameResolved [] name (_NEXT_LOCAL_ID s)
| Name_allocated self_worker_name :
    global_unique_name = None ->
    get_worker_name (world s) = Ok self_worker_name ->
    NameResolved [E_get_worker_name (Ok self_worker_name)]
      (self_worker_name +:+ "_" +:+ str_of_nat (_NEXT_LOCAL_ID s))
      (_NEXT_LOCAL_ID s + 1).

(** The calls that settle the interface, and the interface. *)
Inductive InterfaceResolved : list Event -> option PyClass -> Prop :=
| Interface_given c :
    module_interface_cls = Some c ->
    InterfaceResolved [] (Some c)
| Interface_inferred iface :
    module_interface_cls = None ->
    get_return_type_from_callable module_creator (world s) = Ok iface ->
    InterfaceResolved
      [E_get_return_type_from_callable module_creator (Ok iface)] iface.

Definition flag_of (iface : option PyClass) : PyVal :=
  getattr iface "__torch_script_interface__" (VBool false).

Definition ev_async (name : string) (iface : option PyClass) : Result Future -> Event :=
  E_rpc_async to (H_instantiate_template name iface (flag_of iface)).

Definition ev_instantiate (name : string) (iface : option PyClass)
    : Result GeneratedModule -> Event :=
  E_instantiate_remote_module_template
    ("_RemoteModule_" +:+ name) iface (flag_of iface).

(** The creation request that the flag selects, as a call and as an event. *)
Definition create (iface : option PyClass) (w : W) : Result RRef * W :=
  if truthy (flag_of iface) then
    rpc_sync to
      (H_script_module_creator_wrapper
         module_creator iface (default [] args) (default ∅ kwargs)) w
  else
    rpc_remote to module_creator (default [] args) (default ∅ kwargs) w.

Definition ev_create (iface : option PyClass) (r : Result RRef) : Event :=
  if truthy (flag_of iface) then
    E_rpc_sync to
      (H_script_module_creator_wrapper
         module_creator iface (default [] args) (default ∅ kwargs)) r
  else
    E_rpc_remote to module_creator (default [] args) (default ∅ kwargs) r.

Inductive Runs : Outcome W RemoteModuleInst -> Prop :=
| Run_no_agent :
    _is_current_rpc_agent_set (world s) = false ->
    Runs (mkOutcome (Raise assertion_error) s [E_is_current_rpc_agent_set false])
| Run_no_worker_name e :
    _is_current_rpc_agent_set (world s) = true ->
    global_unique_name = None ->
    get_worker_name (world s) = Raise e ->
    Runs (mkOutcome (Raise e) (mkSt (world s) (_NEXT_LOCAL_ID s + 1))
            [E_is_current_rpc_agent_set true; E_get_worker_name (Raise e)])
| Run_no_interface naming name counter e :
    _is_current_rpc_agent_set (world s) = true ->
    NameResolved naming name counter ->
    module_interface_cls = None ->
    get_return_type_from_callable module_creator (world s) = Raise e ->
    Runs (mkOutcome (Raise e) (mkSt (world s) counter)
            (E_is_current_rpc_agent_set true :: naming ++
             [E_get_return_type_from_callable module_creator (Raise e)]))
| Run_async_raises naming name counter typing iface e w1 :
    _is_current_rpc_agent_set (world s) = true ->
    NameResolved naming name counter ->
    InterfaceResolved typing iface ->
    rpc_async to (H_instantiate_template name iface (flag_of iface)) (world s)
      = (Raise e, w1) ->
    Runs (mkOutcome (Raise e) (mkSt w1 counter)
            (E_is_current_rpc_agent_set true :: naming ++ typing ++
             [ev_async name iface (Raise e)]))
| Run_instantiate_raises naming name counter typing iface fut w1 e w2 :
    _is_current_rpc_agent_set (world s) = true ->
    NameResolved naming name counter ->
    InterfaceResolved typing iface ->
    rpc_async to (H_instantiate_template name iface (flag_of iface)) (world s)
      = (Ok fut, w1) ->
    instantiate_remote_module_template
      ("_RemoteModule_" +:+ name) iface (flag_of iface) w1 = (Raise e, w2) ->
    Runs (mkOutcome (Raise e) (mkSt w2 counter)
            (E_is_current_rpc_agent_set true :: naming ++ typing ++
             [ev_async name iface (Ok fut); ev_instantiate name iface (Raise e)]))
| Run_create_raises naming name counter typing iface fut w1 generated w2 e w3 :
    _is_current_rpc_agent_set (world s) = true ->
    NameResolved naming name counter ->
    InterfaceResolved typing iface ->
    rpc_async to (H_instantiate_template name iface (flag_of iface)) (world s)
      = (Ok fut, w1) ->
    instantiate_remote_module_template
      ("_RemoteModule_" +:+ name) iface (flag_of iface) w1 = (Ok generated, w2) ->
    create iface w2 = (Raise e, w3) ->
    Runs (mkOutcome (Raise e) (mkSt w3 counter)
            (E_is_current_rpc_agent_set true :: naming ++ typing ++
             [ev_async name iface (Ok fut);
              ev_instantiate name iface (Ok generated);
              ev_create iface (Raise e)]))
| Run_new_instance_raises
    naming name counter typing iface fut w1 generated w2 module_rref w3 e w4 :
    _is_current_rpc_agent_set (world s) = true ->
    NameResolved naming name counter ->
    InterfaceResolved typing iface ->
    rpc_async to (H_instantiate_template name iface (flag_of iface)) (world s)
      = (Ok fut, w1) ->
    instantiate_remote_module_template
      ("_RemoteModule_" +:+ name) iface (flag_of iface) w1 = (Ok generated, w2) ->
    create iface w2 = (Ok module_rref, w3) ->
    new_instance (_RemoteModule generated) module_rref (flag_of iface) w3
      = (Raise e, w4) ->
    Runs (mkOutcome (Raise e) (mkSt w4 counter)
            (E_is_current_rpc_agent_set true :: naming ++ typing ++
             [ev_async name iface (Ok fut);
              ev_instantiate name iface (Ok generated);
              ev_create iface (Ok module_rref);
              E_new_instance (_RemoteModule generated) module_rref
                (flag_of iface) (Raise e)]))
| Run_waited
    naming name counter typing iface fut w1 generated w2 module_rref w3
    remote_module w4 waited w5 :
    _is_current_rpc_agent_set (world s) = true ->
    NameResolved naming name counter ->
    InterfaceResolved typing iface ->
    rpc_async to (H_instantiate_template name iface (flag_of iface)) (world s)
      = (Ok fut, w1) ->
    instantiate_remote_module_template
      ("_RemoteModule_" +:+ name) iface (flag_of iface) w1 = (Ok generated, w2) ->
    create iface w2 = (Ok module_rref, w3) ->
    new_instance (_RemoteModule generated) module_rref (flag_of iface) w3
      = (Ok remote_module, w4) ->
    fut_wait fut w4 = (waited, w5) ->
    Runs (mkOutcome
            (match waited with Ok _ => Ok remote_module | Raise e => Raise e end)
            (mkSt w5 counter)
            (E_is_current_rpc_agent_set true :: naming ++ typing ++
             [ev_async name iface (Ok fut);
              ev_instantiate name iface (Ok generated);
              ev_create iface (Ok module_rref);
              E_new_instance (_RemoteModule generated) module_rref
                (flag_of iface) (Ok remote_module);
              E_wait fut waited])).
End Runs.

(** * Properties *)

(** Split on the outcome of the next call of a run: the innermost
    scrutinee of the goal. *)
Ltac next_call :=
  match goal with
  | |- context [match ?x with _ => _ end] =>
      lazymatch x with
      | context [match _ with _ => _ end] => fail
      | _ => destruct x eqn:?
      end
  end.

Lemma Runs_eq {W : Type} `{NodeEnv W} `{RpcLayer W}
    to module_creator args kwargs global_unique_name module_interface_cls
    (s : St W) (o o' : Outcome W RemoteModuleInst) :
  Runs to module_creator args kwargs global_unique_name module_interface_cls s o' ->
  o' = o ->
  Runs to module_creator args kwargs global_unique_name module_interface_cls s o.
Proof. intros Hrun <-. exact Hrun. Qed.

(** A premise of a constructor of [Runs]: an equation at hand, the
    resolution of the name or the interface, or the creation request unfolded
    at the flag's truth value. *)
Ltac run_premise :=
  first
    [ eassumption
    | reflexivity
    | solve [econstructor; first [eassumption | reflexivity]]
    | solve [unfold create, flag_of;
             match goal with Ht : truthy _ = _ |- _ => rewrite Ht end;
             eassumption] ].

Ltac close_run c :=
  solve
    [ eapply Runs_eq;
      [ eapply c; run_premise
      | cbn; unfold ev_async, ev_instantiate, ev_create, flag_of;
        try match goal with Ht : truthy _ = _ |- _ => rewrite Ht end;
        reflexivity ] ].

Section CreationEvent.
Context {W : Type} `{NodeEnv W} `{RpcLayer W}.
Variables (to : string) (module_creator : Callable).
Variables (args : option (list PyVal)) (kwargs : option (gmap string PyVal)).

Local Abbreviation ev_create' := (ev_create to module_creator args kwargs).

Lemma raised_by_ev_create iface r : raised_by (ev_create' iface r) = exn_of r.
Proof. unfold ev_create. destruct (truthy _); reflexivity. Qed.

Lemma yields_ev_create iface rref : yields (ev_create' iface (Ok rref)) = Some rref.
Proof. unfold ev_create. destruct (truthy _); reflexivity. Qed.

Lemma is_creation_ev_create iface r : is_creation (ev_create' iface r) = true.
Proof. unfold ev_create. destruct (truthy _); reflexivity. Qed.

Lemma is_network_ev_create iface r : is_network (ev_create' iface r) = true.
Proof. unfold ev_create. destruct (truthy _); reflexivity. Qed.
End CreationEvent.

Ltac creation_facts :=
  rewrite ?raised_by_ev_create, ?yields_ev_create, ?is_creation_ev_create,
    ?is_network_ev_create.

(** Read the calls that settled the name and the interface off their
    derivations, so that the trace of a run becomes an explicit list. *)
Ltac resolve_prologue :=
  repeat match goal with
         | N : NameResolved _ _ _ _ _ |- _ => destruct N
         | I : InterfaceResolved _ _ _ _ _ |- _ => destruct I
         end;
  cbn [app].

(** Write the events of a run out, splitting on the truth value of the
    flag. *)
Ltac explicit_events :=
  unfold ev_async, ev_instantiate, ev_create in *;
  try match goal with
      | |- context [truthy (flag_of ?i)] => destruct (truthy (flag_of i)) eqn:?
      | _ : context [truthy (flag_of ?i)] |- _ => destruct (truthy (flag_of i)) eqn:?
      end.

(** Split a membership in an explicit list into its cases. *)
Ltac pick_event :=
  cbn in *;
  repeat match goal with
         | H : _ \/ _ |- _ => destruct H
         | H : False |- _ => destruct H
         end;
  simplify_eq.

(** The handler of the scriptable path, case by case: it calls the
    creator with the arguments it was given, scripts what the creator
    returned, and wraps the script module in a remote reference typed by
    the interface; it stops at the first of the three that raises. *)
Lemma script_module_creator_wrapper_runs {W : Type} `{NodeEnv W}
    (module_creator : Callable) (iface : option PyClass)
    (a : list PyVal) (k : gmap string PyVal) (s : St W) :
  _script_module_creator_wrapper module_creator iface a k s =
  match call_creator module_creator a k (world s) with
  | (Raise e, w1) =>
      mkOutcome (Raise e) (mkSt w1 (_NEXT_LOCAL_ID s))
        [E_call module_creator a k (Raise e)]
  | (Ok module, w1) =>
      match jit_script module w1 with
      | (Raise e, w2) =>
          mkOutcome (Raise e) (mkSt w2 (_NEXT_LOCAL_ID s))
            [E_call module_creator a k (Ok module);
             E_jit_script module (Raise e)]
      | (Ok script_module, w2) =>
          match RRef_new script_module iface w2 with
          | (r, w3) =>
              mkOutcome r (mkSt w3 (_NEXT_LOCAL_ID s))
                [E_call module_creator a k (Ok module);
                 E_jit_script module (Ok script_module);
                 E_RRef script_module iface r]
          end
      end
  end.
Proof.
  unfold _script_module_creator_wrapper, bind, call_out.
  destruct (call_creator module_creator a k (world s)) as [[module|e] w1];
    [|reflexivity].
  cbn. destruct (jit_script module w1) as [[script_module|e] w2];
    [|reflexivity].
  cbn. destruct (RRef_new script_module iface w2) as [[r|e] w3]; reflexivity.
Qed.

Lemma flag_of_absent (iface : option PyClass) :
  match iface with
  | Some c => cls_attrs c !! "__torch_script_interface__" = None
  | None => True
  end ->
  flag_of iface = VBool false.
Proof.
  destruct iface; unfold flag_of, getattr; [intros ->|]; reflexivity.
Qed.

(** Point at an event of an explicit trace. *)
Ltac find_event :=
  cbn; solve [repeat (first [left; reflexivity | right])].

(** Point at the creation request of an explicit trace. *)
Ltac find_creation :=
  match goal with
  | |- context [E_rpc_sync ?t ?h (Ok ?r)] => exists (E_rpc_sync t h (Ok r)), r
  | |- context [E_rpc_remote ?t ?f ?a ?k (Ok ?r)] =>
      exists (E_rpc_remote t f a k (Ok r)), r
  end;
  split; [find_event | reflexivity].

Section Orchestrator.
Context {W : Type} `{NodeEnv W} `{RpcLayer W}.
Variables (to : string) (module_creator : Callable).
Variables (args : option (list PyVal)) (kwargs : option (gmap string PyVal)).
Variables (global_unique_name : option string).
Variables (module_interface_cls : option PyClass).

(** The world of the node that receives the handlers. *)
Context {W' : Type} `{NodeEnv W'}.

Local Abbreviation run_of s :=
  (RemoteModule to module_creator args kwargs global_unique_name
                module_interface_cls s).

Local Abbreviation Runs_from s :=
  (Runs to module_creator args kwargs global_unique_name
        module_interface_cls s).

(** Every run is one of the listed ones. *)
Lemma RemoteModule_runs (s : St W) : Runs_from s (run_of s).
Proof.
  destruct s as [w c].
  unfold RemoteModule, _gen_global_unique_name, _instantiate_template,
    bind, read_out, call_out, ask, assert_, fetch_and_increment, ret, raise.
  set (a := match args with Some a => a | None => [] end).
  set (k := match kwargs with Some k => k | None => ∅ end).
  cbn.
  repeat (next_call; cbn).
  all: repeat match goal with
              | E : ?r = Ok _ |- _ => is_var r; subst r
              | E : ?r = Raise _ |- _ => is_var r; subst r
              end.
  all: first
         [ close_run Run_no_agent | close_run Run_no_worker_name
         | close_run Run_no_interface | close_run Run_async_raises
         | close_run Run_instantiate_raises | close_run Run_create_raises
         | close_run Run_new_instance_raises | close_run Run_waited ].
Qed.

(** C2: without an RPC agent the call fails on its assertion at once:
    the only call logged is the check itself, nothing went to the
    network and the state is unchanged.  With an agent the check is the
    first thing logged and is never what fails: an exception that the
    call ends with was raised by the last collaborator call logged. *)
Theorem RemoteModule_sanity_check (s : St W) :
  if _is_current_rpc_agent_set (world s)
  then
    head (trace (run_of s)) = Some (E_is_current_rpc_agent_set true) /\
    forall e, result (run_of s) = Raise e ->
      exists ev, last (trace (run_of s)) = Some ev /\ raised_by ev = Some e
  else
    run_of s =
      mkOutcome (Raise (Exn "AssertionError" "RemoteModule only works in RPC."))
                s [E_is_current_rpc_agent_set false].
Proof.
  destruct (RemoteModule_runs s); resolve_prologue;
    match goal with Hset : _is_current_rpc_agent_set _ = _ |- _ => rewrite Hset end;
    try reflexivity.
  all: split; [reflexivity |]; intros e' He'; cbn in He'.
  all: try (destruct waited; [discriminate |]).
  all: injection He' as ->; eexists; split;
    [reflexivity | creation_facts; reflexivity].
Qed.

(** C1: a call that returns an instance has, as its last five logged
    calls, in this order: the asynchronous RPC of [_instantiate_template],
    answered with a future; the local instantiation; the creation request
    on the remote side, answered with a remote reference; the construction
    of the instance from that reference; and the wait on that same future,
    which returned without raising.  Nothing before them went to the
    network. *)
Theorem RemoteModule_returns_after_both (s : St W) (remote_module : RemoteModuleInst) :
  result (run_of s) = Ok remote_module ->
  exists before name iface flag fut generated creation module_rref,
    trace (run_of s) =
      before ++
      [E_rpc_async to (H_instantiate_template name iface flag) (Ok fut);
       E_instantiate_remote_module_template
         ("_RemoteModule_" +:+ name) iface flag (Ok generated);
       creation;
       E_new_instance (_RemoteModule generated) module_rref flag (Ok remote_module);
       E_wait fut (Ok tt)] /\
    is_creation creation = true /\
    yields creation = Some module_rref /\
    local_only before = true.
Proof.
  intros Hok.
  destruct (RemoteModule_runs s); try discriminate Hok.
  cbn in Hok. destruct waited as [[]|]; [|discriminate Hok].
  injection Hok as ->.
  resolve_prologue;
    first
      [ solve [eexists [_]; do 7 eexists; (split; [reflexivity |]);
               creation_facts; done]
      | solve [eexists [_; _]; do 7 eexists; (split; [reflexivity |]);
               creation_facts; done]
      | solve [eexists [_; _; _]; do 7 eexists; (split; [reflexivity |]);
               creation_facts; done] ].
Qed.

(** C3: when the wait on the future raises, the call raises that very
    exception, although by then the local instantiation has succeeded and
    the creation request has come back with a remote reference; the wait
    is the last call made, and no instance is returned. *)
Theorem RemoteModule_raises_when_future_fails (s : St W) (fut : Future) (e : exn) :
  In (E_wait fut (Raise e)) (trace (run_of s)) ->
  result (run_of s) = Raise e /\
  last (trace (run_of s)) = Some (E_wait fut (Raise e)) /\
  (exists name iface flag generated,
     In (E_instantiate_remote_module_template name iface flag (Ok generated))
        (trace (run_of s))) /\
  (exists creation module_rref,
     In creation (trace (run_of s)) /\ yields creation = Some module_rref).
Proof.
  intros Hin.
  destruct (RemoteModule_runs s); resolve_prologue; explicit_events;
    pick_event.
  all: cbn; (split; [reflexivity | split; [reflexivity | split]]);
    [do 4 eexists; find_event | find_creation].
Qed.

(** C9: whatever the call does, a creation request it sends carries the
    caller's [args] and [kwargs], with the empty tuple in place of a
    missing [args] and the empty dict in place of a missing [kwargs]; and
    the handler of the scriptable path calls the creator, first thing, with
    exactly the arguments it was sent. *)
Theorem RemoteModule_normalizes_arguments (s : St W) (ev : Event) :
  In ev (trace (run_of s)) ->
  match ev with
  | E_rpc_sync _ h _ =>
      exists iface,
        h = H_script_module_creator_wrapper
              module_creator iface (default [] args) (default ∅ kwargs) /\
        forall s' : St W,
          head (trace (run_handler h s')) =
            Some (E_call module_creator (default [] args) (default ∅ kwargs)
                    (fst (call_creator module_creator (default [] args)
                            (default ∅ kwargs) (world s'))))
  | E_rpc_remote _ f a k _ =>
      f = module_creator /\ a = default [] args /\ k = default ∅ kwargs
  | _ => True
  end.
Proof.
  intros Hin.
  destruct (RemoteModule_runs s); resolve_prologue; explicit_events;
    pick_event; try done.
  all: eexists; (split; [reflexivity |]); intros s';
    unfold run_handler, bind;
    rewrite script_module_creator_wrapper_runs;
    destruct (call_creator _ _ _ _) as [[module|e'] wa];
    [destruct (jit_script _ _) as [[sm|e'] wb];
     [destruct (RRef_new _ _ _) as [[r|e'] wc]|]|];
     reflexivity.
Qed.

(** C10: the flag that the call sends with the template is the value of
    the attribute [__torch_script_interface__] of the interface it settled
    on, [False] when there is none; the same value goes to the local
    instantiation and to the constructor, and its truth value picks the
    creation request.  An interface without the attribute therefore never
    leads to the synchronous RPC, and a call that returns has gone through
    [rpc.remote]. *)
Theorem RemoteModule_flag_is_attribute
    (s : St W) (to' : string) (h : RpcHandler) (r : Result Future) :
  In (E_rpc_async to' h r) (trace (run_of s)) ->
  exists name iface,
    let flag := getattr iface "__torch_script_interface__" (VBool false) in
    h = H_instantiate_template name iface flag /\
    match module_interface_cls with
    | Some c => iface = Some c
    | None => get_return_type_from_callable module_creator (world s) = Ok iface
    end /\
    (forall ev, In ev (trace (run_of s)) ->
       match ev with
       | E_instantiate_remote_module_template _ _ f _ => f = flag
       | E_new_instance _ _ f _ => f = flag
       | E_rpc_sync _ _ _ => truthy flag = true
       | E_rpc_remote _ _ _ _ _ => truthy flag = false
       | _ => True
       end) /\
    (match iface with
     | Some c => cls_attrs c !! "__torch_script_interface__" = None
     | None => True
     end ->
     flag = VBool false /\
     (forall ev, In ev (trace (run_of s)) -> is_rpc_sync ev = false) /\
     (is_ok (result (run_of s)) = true ->
      exists module_rref,
        In (E_rpc_remote to module_creator (default [] args) (default ∅ kwargs)
              (Ok module_rref))
           (trace (run_of s)))).
Proof.
  intros Hin.
  destruct (RemoteModule_runs s); resolve_prologue; explicit_events;
    pick_event.
  all: repeat match goal with
         | E : module_interface_cls = _ |- _ => rewrite E; clear E
         end.
  all: eexists _, _; cbn zeta; fold (flag_of iface) || idtac.
  all: (split; [reflexivity |]); (split; [first [reflexivity | assumption] |]).
  all: split;
    [ intros ev Hev; pick_event; done
    | intros Habsent;
      match goal with
      | |- getattr ?i _ _ = _ /\ _ =>
          pose proof (flag_of_absent i Habsent) as Hfalse
      end ].
  all: try match goal with
           | Hflag : truthy (flag_of _) = true |- _ =>
               rewrite Hfalse in Hflag; discriminate Hflag
           end.
  all: split;
    [ exact Hfalse
    | split;
      [ intros ev Hev; pick_event; reflexivity
      | cbn; intros Hok; try discriminate Hok;
        try (destruct waited; [|discriminate Hok]);
        eexists; find_event ] ].
Qed.

(** C6: the name of a construction is the caller's when one is given, and
    then the counter is left alone; otherwise it is what the allocator
    returns, the name of this worker, an underscore and the value the
    counter had before it was incremented.  That name is the one sent with
    the template, and with the prefix [_RemoteModule_] it names the module
    generated locally. *)
Theorem RemoteModule_name_resolution (s : St W) (name : string) :
  _is_current_rpc_agent_set (world s) = true ->
  (module_interface_cls = None ->
   is_ok (get_return_type_from_callable module_creator (world s)) = true) ->
  match global_unique_name with
  | Some given => name = given
  | None =>
      exists self_worker_name,
        get_worker_name (world s) = Ok self_worker_name /\
        name = self_worker_name +:+ "_" +:+ str_of_nat (_NEXT_LOCAL_ID s)
  end ->
  (exists iface r,
     In (E_rpc_async to (H_instantiate_template name iface (flag_of iface)) r)
        (trace (run_of s))) /\
  (forall ev, In ev (trace (run_of s)) ->
     match ev with
     | E_rpc_async _ h _ => exists iface flag, h = H_instantiate_template name iface flag
     | E_instantiate_remote_module_template generated_module_name _ _ _ =>
         generated_module_name = "_RemoteModule_" +:+ name
     | _ => True
     end) /\
  (is_Some global_unique_name ->
   _NEXT_LOCAL_ID (final (run_of s)) = _NEXT_LOCAL_ID s) /\
  (global_unique_name = None ->
   _NEXT_LOCAL_ID (final (run_of s)) = _NEXT_LOCAL_ID s + 1 /\
   _gen_global_unique_name s =
     mkOutcome (Ok name) (mkSt (world s) (_NEXT_LOCAL_ID s + 1))
               [E_get_worker_name (get_worker_name (world s))]).
Proof.
  intros Hset Hinfer Hname.
  assert (forall me, get_worker_name (world s) = Ok me ->
          _gen_global_unique_name s =
            mkOutcome (Ok (me +:+ "_" +:+ str_of_nat (_NEXT_LOCAL_ID s)))
                      (mkSt (world s) (_NEXT_LOCAL_ID s + 1))
                      [E_get_worker_name (get_worker_name (world s))]) as Halloc.
  { intros me Hme.
    unfold _gen_global_unique_name, bind, fetch_and_increment, read_out, call_out, ret.
    cbn. rewrite Hme. reflexivity. }
  destruct (RemoteModule_runs s); resolve_prologue; explicit_events;
    try congruence;
    repeat match goal with
           | E : global_unique_name = _ |- _ => rewrite E in Hname |- *; revert E
           | E : module_interface_cls = None |- _ =>
               specialize (Hinfer E)
           | E : get_return_type_from_callable _ _ = Raise _ |- _ =>
               rewrite E in Hinfer; discriminate Hinfer
           end;
    intros;
    try match type of Hname with
        | ex _ => destruct Hname as (me & Hme & ->)
        end;
    simplify_eq; try congruence;
    try match goal with
        | A : ?call = Ok ?one, B : ?call = Ok ?other |- _ =>
            tryif constr_eq one other then fail
            else (assert (one = other) as -> by congruence; clear A)
        end.
  all: (split; [eexists _, _; find_event |]);
    (split; [intros ev Hev; pick_event; try done; eauto |]);
    (split; [intros Hsome; first [cbn; reflexivity | destruct Hsome; discriminate] |]);
    intros Hnone; first [discriminate Hnone | split; [cbn; reflexivity | auto]].
Qed.

(** C8: the handler that the call sends to the remote node is
    [_instantiate_template] on a name, an interface and a flag, and the
    local instantiation is [_instantiate_template] on the same three.  On
    whatever node the handler runs, it calls the code generator once, with
    the module name [_RemoteModule_] followed by that name, that interface
    and that flag; so where the generator there answers what the local
    one answered, the handler returns the class the caller holds. *)
Theorem RemoteModule_instantiates_alike_on_both_sides
    (s : St W) (to' : string) (h : RpcHandler) (r : Result Future) :
  In (E_rpc_async to' h r) (trace (run_of s)) ->
  exists name iface flag,
    to' = to /\
    h = H_instantiate_template name iface flag /\
    (forall generated_module_name iface' flag' r',
       In (E_instantiate_remote_module_template
             generated_module_name iface' flag' r')
          (trace (run_of s)) ->
       generated_module_name = "_RemoteModule_" +:+ name /\
       iface' = iface /\ flag' = flag) /\
    forall s' : St W',
      let remote :=
        instantiate_remote_module_template
          ("_RemoteModule_" +:+ name) iface flag (world s') in
      trace (run_handler h s') =
        [E_instantiate_remote_module_template
           ("_RemoteModule_" +:+ name) iface flag (fst remote)] /\
      forall generated_module_name iface' flag' generated,
        In (E_instantiate_remote_module_template
              generated_module_name iface' flag' (Ok generated))
           (trace (run_of s)) ->
        fst remote = Ok generated ->
        result (run_handler h s') = Ok (inl (_RemoteModule generated)).
Proof.
  intros Hin.
  destruct (RemoteModule_runs s); resolve_prologue; explicit_events;
    pick_event.
  all: eexists _, _, _; (split; [reflexivity |]); (split; [reflexivity |]).
  all: split;
    [ intros g i' f' r' Hev; pick_event; done
    | intros s'; cbn zeta;
      unfold run_handler, _instantiate_template, bind, call_out, ret;
      destruct (instantiate_remote_module_template _ _ _ (world s'))
        as [[generated'|e'] w'];
      cbn; (split; [reflexivity |]);
      intros g i' f' generated0 Hev Hremote; pick_event; done ].
Qed.
End Orchestrator.

(** ** The creation request *)

(** *** What the calls of the RPC layer of the mesh leave alone *)

Lemma undisturbed_same_peers m0 m1 : peers m1 = peers m0 -> undisturbed m0 m1.
Proof.
  intros Hp. split.
  - intros name. unfold factory_calls_on. rewrite Hp. reflexivity.
  - intros name r h. unfold held_on. rewrite Hp. trivial.
Qed.

Lemma undisturbed_trans m0 m1 m2 :
  undisturbed m0 m1 -> undisturbed m1 m2 -> undisturbed m0 m2.
Proof.
  intros [Hc1 Hh1] [Hc2 Hh2]. split.
  - intros name. rewrite Hc2. apply Hc1.
  - intros name r h Hheld. apply Hh2, Hh1, Hheld.
Qed.

Lemma on_here_peers {A} (op : Node -> Result A * Node) m r m1 :
  on_here op m = (r, m1) ->
  undisturbed m m1 /\ futures m1 = futures m.
Proof.
  intros [= <- <-]. split; [apply undisturbed_same_peers|]; reflexivity.
Qed.

(** The handler of [_instantiate_template] on a node calls no factory and
    leaves the references of the node alone. *)
Lemma template_handler_on_node n i f (s' : St Node) :
  List.filter is_factory_call
    (trace (run_handler (H_instantiate_template n i f) s')) = [] /\
  nd_rrefs (world (final (run_handler (H_instantiate_template n i f) s'))) =
    nd_rrefs (world s').
Proof.
  unfold run_handler, _instantiate_template, bind, call_out, ret.
  cbn. unfold node_instantiate_remote_module_template.
  destruct i as [c|]; [destruct (nd_codegen_fault (world s'))|]; cbn; done.
Qed.

Lemma deliver_template to n i f m :
  undisturbed m (snd (deliver to (H_instantiate_template n i f) m)) /\
  futures (snd (deliver to (H_instantiate_template n i f) m)) = futures m.
Proof.
  unfold deliver.
  destruct (peers m !! to) as [p|] eqn:Hp; cbn [snd];
    [|split; [apply undisturbed_same_peers|]; reflexivity].
  destruct (template_handler_on_node n i f (peer_state p)) as [Hcalls Hrrefs].
  split; [|reflexivity]. split.
  - intros name. unfold factory_calls_on. cbn [peers].
    destruct (decide (name = to)) as [->|Hne].
    + rewrite lookup_insert_eq, Hp. cbn [peer_trace].
      rewrite List.filter_app, Hcalls. apply app_nil_r.
    + rewrite lookup_insert_ne by done. reflexivity.
  - intros name r h (p0 & Hp0 & Hin). unfold held_on. cbn [peers].
    destruct (decide (name = to)) as [->|Hne].
    + rewrite lookup_insert_eq. eexists. split; [reflexivity|].
      cbn [peer_state]. rewrite Hrrefs. congruence.
    + rewrite lookup_insert_ne by done. eauto.
Qed.

Lemma mesh_rpc_async_template to n i f m fut m1 :
  mesh_rpc_async to (H_instantiate_template n i f) m = (Ok fut, m1) ->
  undisturbed m m1 /\
  exists st, futures m1 = futures m ++ [st] /\
             fut_id fut = length (futures m) /\ template_future st.
Proof.
  unfold mesh_rpc_async.
  destruct (peers m !! to) as [p|]; [|discriminate].
  destruct (eager m).
  - destruct (deliver_template to n i f m) as [Hund Hfut].
    intros [= <- <-]. split; [exact Hund|].
    eexists. split; [reflexivity|]. split; [reflexivity|exact I].
  - intros [= <- <-]. split; [apply undisturbed_same_peers; reflexivity|].
    eexists. split; [reflexivity|]. split; [reflexivity|exact I].
Qed.

Lemma mesh_rpc_remote_defers to f a k m r m1 :
  mesh_rpc_remote to f a k m = (Ok r, m1) ->
  undisturbed m m1 /\ futures m1 = futures m /\
  held_on to m1 r (Deferred f a k).
Proof.
  unfold mesh_rpc_remote.
  destruct (peers m !! to) as [p|] eqn:Hp; [|discriminate].
  intros [= <- <-]. split; [|split; [reflexivity|]].
  - split.
    + intros name. unfold factory_calls_on. cbn [peers].
      destruct (decide (name = to)) as [->|Hne].
      * rewrite lookup_insert_eq, Hp. reflexivity.
      * rewrite lookup_insert_ne by done. reflexivity.
    + intros name r' h (p0 & Hp0 & Hin). unfold held_on. cbn [peers].
      destruct (decide (name = to)) as [->|Hne].
      * rewrite lookup_insert_eq. eexists. split; [reflexivity|].
        cbn. apply in_or_app. left. congruence.
      * rewrite lookup_insert_ne by done. eauto.
  - unfold held_on. cbn [peers]. rewrite lookup_insert_eq.
    eexists. split; [reflexivity|]. cbn. apply in_or_app.
    right. left. reflexivity.
Qed.

Lemma mesh_fut_wait_template fut m st :
  futures m !! fut_id fut = Some st -> template_future st ->
  undisturbed m (snd (mesh_fut_wait fut m)).
Proof.
  intros Hst Htemplate. unfold mesh_fut_wait. rewrite Hst.
  destruct st as [to [n i f|]|r]; try contradiction; cbn [snd].
  - destruct (deliver_template to n i f m) as [[Hc Hh] _].
    split; [exact Hc|exact Hh].
  - apply undisturbed_same_peers. reflexivity.
Qed.

(** On the mesh, the creation that [rpc.remote] was asked for is still
    to run when the call of [RemoteModule] ends, and no factory has been
    called on any peer in the course of the call. *)
Lemma deferred_creation_outlives_the_call
    (to : string) (module_creator : Callable)
    (args : option (list PyVal)) (kwargs : option (gmap string PyVal))
    (global_unique_name : option string) (module_interface_cls : option PyClass)
    (m : St Mesh) (module_rref : RRef) :
  let run := RemoteModule to module_creator args kwargs global_unique_name
               module_interface_cls m in
  In (E_rpc_remote to module_creator (default [] args) (default ∅ kwargs)
        (Ok module_rref)) (trace run) ->
  held_on to (world (final run)) module_rref
    (Deferred module_creator (default [] args) (default ∅ kwargs)) /\
  forall name,
    factory_calls_on name (world (final run)) = factory_calls_on name (world m).
Proof.
  cbv zeta. intros Hin.
  destruct (RemoteModule_runs to module_creator args kwargs global_unique_name
              module_interface_cls m);
    resolve_prologue; cbn [trace In app] in Hin.
  all: unfold ev_async, ev_instantiate, ev_create in Hin.
  all: repeat match type of Hin with _ \/ _ => destruct Hin as [Hin|Hin] end;
    try (destruct Hin; fail); try discriminate Hin.
  all: destruct (truthy (flag_of _)) eqn:Hflag; try discriminate Hin.
  all: injection Hin as ->; cbn [final world].
  all: match goal with
       | Hc : create _ _ _ _ _ _ = _ |- _ =>
           unfold create in Hc; rewrite Hflag in Hc;
           destruct (mesh_rpc_remote_defers _ _ _ _ _ _ _ Hc)
             as (Ucreate & Fcreate & Hheld)
       end.
  all: match goal with
       | Ha : rpc_async _ _ _ = _ |- _ =>
           destruct (mesh_rpc_async_template _ _ _ _ _ _ _ Ha)
             as (Uasync & st & Fasync & Hid & Hst)
       end.
  all: match goal with
       | Hi : instantiate_remote_module_template _ _ _ _ = _ |- _ =>
           destruct (on_here_peers _ _ _ _ Hi) as (Ulocal & Flocal)
       end.
  all: match goal with
       | Hn : new_instance _ _ _ _ = _ |- _ =>
           destruct (on_here_peers _ _ _ _ Hn) as (Unew & Fnew)
       end.
  all: try match goal with
       | Hw : fut_wait ?fut ?w4 = (_, ?w5) |- _ =>
           assert (undisturbed w4 w5) as Uwait
             by (replace w5 with (snd (mesh_fut_wait fut w4))
                   by (exact (f_equal snd Hw));
                 apply (mesh_fut_wait_template fut w4 st); [|exact Hst];
                 rewrite Fnew, Fcreate, Flocal, Fasync, Hid;
                 apply list_lookup_middle; reflexivity)
       end.
  all: first [ pose proof (undisturbed_trans _ _ _ Unew Uwait) as Utail
             | pose proof Unew as Utail ].
  all: destruct (undisturbed_trans _ _ _
                   (undisturbed_trans _ _ _
                      (undisturbed_trans _ _ _ Uasync Ulocal) Ucreate) Utail)
         as [Hcalls _];
    destruct Utail as [_ Hholds];
    (split; [apply Hholds, Hheld | exact Hcalls]).
Qed.

Section Dispatch.
Context {W : Type} `{NodeEnv W} `{RpcLayer W}.
Variables (to : string) (module_creator : Callable).
Variables (args : option (list PyVal)) (kwargs : option (gmap string PyVal)).
Variables (global_unique_name : option string).
Variables (module_interface_cls : option PyClass).

(** The world of the node that receives the handlers. *)
Context {W' : Type} `{NodeEnv W'}.

Local Abbreviation run_of s :=
  (RemoteModule to module_creator args kwargs global_unique_name
                module_interface_cls s).

(** C4: once the local instantiation has succeeded, the run sends exactly
    one creation request, and which one is the flag's choice.

    With a true flag it is the synchronous RPC of
    [_script_module_creator_wrapper] with the creator, the interface and
    the arguments, and no [rpc.remote].  On whatever node that handler
    runs, the first thing it does is call the creator on the arguments;
    what the creator returns it passes to [torch.jit.script]; the script
    module it wraps in a reference typed by the interface, and what
    [rpc.RRef] answers is what the handler answers.  So a handler that
    returned a reference made these three calls, in this order, and
    nothing else.

    With a false flag it is [rpc.remote] with the creator and the
    arguments, and no synchronous RPC.  On the mesh, whose RPC layer
    follows the spec, the reference that [rpc.remote] came back with
    stands, when the call of [RemoteModule] ends, for a creation that the
    owner has still to run, and no peer has called a factory in the
    course of the call: the reference was not waited for. *)
Theorem RemoteModule_dispatches_on_flag
    (s : St W) (generated_module_name : string) (iface : option PyClass)
    (flag : PyVal) (generated : GeneratedModule) :
  In (E_instantiate_remote_module_template
        generated_module_name iface flag (Ok generated))
     (trace (run_of s)) ->
  let a := default [] args in
  let k := default ∅ kwargs in
  let wrapper := H_script_module_creator_wrapper module_creator iface a k in
  (exists r,
     List.filter is_creation (trace (run_of s)) =
       [if truthy flag
        then E_rpc_sync to wrapper r
        else E_rpc_remote to module_creator a k r]) /\
  (forall s' : St W',
     let handled := run_handler wrapper s' in
     let created := call_creator module_creator a k (world s') in
     head (trace handled) = Some (E_call module_creator a k (fst created)) /\
     (forall module, fst created = Ok module ->
        let scripted := jit_script module (snd created) in
        trace handled !! 1 = Some (E_jit_script module (fst scripted)) /\
        forall script_module, fst scripted = Ok script_module ->
          let wrapped := RRef_new script_module iface (snd scripted) in
          trace handled =
            [E_call module_creator a k (Ok module);
             E_jit_script module (Ok script_module);
             E_RRef script_module iface (fst wrapped)] /\
          result handled =
            match fst wrapped with
            | Ok module_rref => Ok (inr module_rref)
            | Raise e => Raise e
            end) /\
     (forall module_rref, result handled = Ok (inr module_rref) ->
        exists module script_module,
          trace handled =
            [E_call module_creator a k (Ok module);
             E_jit_script module (Ok script_module);
             E_RRef script_module iface (Ok module_rref)])) /\
  (forall (m : St Mesh) (module_rref : RRef),
     let run := RemoteModule to module_creator args kwargs global_unique_name
                  module_interface_cls m in
     In (E_rpc_remote to module_creator a k (Ok module_rref)) (trace run) ->
     held_on to (world (final run)) module_rref (Deferred module_creator a k) /\
     forall name,
       factory_calls_on name (world (final run)) =
       factory_calls_on name (world m)).
Proof.
  intros Hin a k wrapper.
  split; [|split].
  - destruct (RemoteModule_runs to module_creator args kwargs
                global_unique_name module_interface_cls s);
      resolve_prologue; explicit_events; pick_event.
    all: match goal with
         | Hflag : truthy (flag_of ?i) = _ |- _ => rewrite Hflag
         end.
    all: eexists; reflexivity.
  - intros s'. cbv zeta. unfold wrapper, run_handler, bind.
    rewrite script_module_creator_wrapper_runs.
    destruct (call_creator module_creator a k (world s'))
      as [[module|e'] wa] eqn:Hcreated;
      [destruct (jit_script module wa) as [[sm|e'] wb] eqn:Hscripted;
       [destruct (RRef_new sm iface wb) as [[rr|e'] wc] eqn:Hwrapped|]|];
      cbn; (split; [reflexivity|]);
      (split; [intros ? ?; simplify_eq; rewrite Hscripted; cbn;
               (split; [reflexivity|]); intros ? ?; simplify_eq;
               rewrite Hwrapped; done
              | intros ? ?; simplify_eq; eauto]).
  - intros m module_rref.
    apply deferred_creation_outlives_the_call.
Qed.
End Dispatch.

(** ** The allocator under interleaving *)

Lemma str_of_nat_inj (a b : nat) : str_of_nat a = str_of_nat b -> a = b.
Proof.
  unfold str_of_nat. intros Heq.
  apply (f_equal NilEmpty.uint_of_string) in Heq.
  rewrite !NilEmpty.usu in Heq. injection Heq as Heq.
  apply (f_equal Nat.of_uint) in Heq.
  now rewrite !DecimalNat.Unsigned.of_to in Heq.
Qed.

Lemma append_inj_r (prefix a b : string) : prefix +:+ a = prefix +:+ b -> a = b.
Proof.
  induction prefix as [|ch prefix IH]; cbn; [trivial|].
  intros Heq. injection Heq as Heq. exact (IH Heq).
Qed.

Lemma name_inj (me : string) (a b : nat) :
  me +:+ "_" +:+ str_of_nat a = me +:+ "_" +:+ str_of_nat b -> a = b.
Proof.
  intros Heq. apply append_inj_r in Heq. apply append_inj_r in Heq.
  exact (str_of_nat_inj _ _ Heq).
Qed.

Section Allocator.
Import Alloc.

(** An action either leaves the process as it is or is one of the moves. *)
Lemma step_moves (i : nat) (p : Proc) :
  step i p = p \/
  exists pc pc' counter' lock',
    invocations p !! i = Some pc /\
    Moves i p pc pc' counter' lock' /\
    step i p = mkProc counter' lock' (agent p) (<[i := pc']> (invocations p)).
Proof.
  unfold step, set_pc.
  destruct (invocations p !! i) as [pc|] eqn:Hpc; [|left; reflexivity].
  destruct pc; try (left; reflexivity);
    try (right; eexists _, _, _, _; split; [reflexivity|];
         split; [constructor | reflexivity]).
  - destruct (lock p) eqn:Hlock; [left; reflexivity|].
    right. eexists _, _, _, _. split; [reflexivity|].
    split; [constructor; exact Hlock | reflexivity].
  - destruct (agent p) as [me|] eqn:Hagent;
      right; eexists _, _, _, _; (split; [reflexivity|]);
      (split; [constructor; exact Hagent | reflexivity]).
Qed.

(** Where invocation [j] stands after invocation [i] has moved. *)
Lemma lookup_moved (l : list Pc) (i j : nat) (pc pc' x : Pc) :
  l !! i = Some pc ->
  <[i := pc']> l !! j = Some x ->
  (j = i /\ x = pc') \/ (j <> i /\ l !! j = Some x).
Proof.
  intros Hi Hj. destruct (decide (j = i)) as [->|Hne].
  - left. split; [reflexivity|].
    rewrite list_lookup_insert_eq in Hj by (eapply lookup_lt_Some; eauto).
    congruence.
  - right. split; [assumption|].
    rewrite list_lookup_insert_ne in Hj by congruence. exact Hj.
Qed.

Lemma owns_inj (self : option string) (pc : Pc) (a b : nat) :
  owns self pc a -> owns self pc b -> a = b.
Proof.
  destruct pc; cbn; try congruence; try tauto.
  intros (me & Hme & Ha) (me' & Hme' & Hb).
  assert (me' = me) as -> by congruence.
  apply (name_inj me). congruence.
Qed.
(** What a move hands on: the value held before it, or, at the read, the
    counter. *)
Lemma owns_moved (i : nat) (p : Proc) (pc pc' : Pc) (counter' : nat)
    (lock' : option nat) (id : nat) :
  Moves i p pc pc' counter' lock' ->
  owns (agent p) pc' id ->
  (pc = AtRead /\ id = next_local_id p) \/ owns (agent p) pc id.
Proof.
  intros Hmove Howns. destruct Hmove; cbn in *; try tauto; auto.
  right. destruct Howns as (me' & Hme & Hname).
  assert (me' = me) as -> by congruence.
  exact (name_inj _ _ _ Hname).
Qed.

Lemma moves_from_critical_section (i : nat) (p : Proc) (pc pc' : Pc)
    (counter' : nat) (lock' : option nat) :
  Moves i p pc pc' counter' lock' ->
  in_critical_section pc = true \/
  (counter' = next_local_id p /\ before_store pc' = false /\
   (lock' = lock p \/ lock p = None)).
Proof. destruct 1; cbn; auto. Qed.

(** Two invocations inside the [with] block are one. *)
Lemma critical_section_exclusive (p : Proc) (i j : nat) (pci pcj : Pc) :
  Inv p ->
  invocations p !! i = Some pci -> invocations p !! j = Some pcj ->
  in_critical_section pci = true -> in_critical_section pcj = true ->
  i = j.
Proof.
  intros HI Hi Hj Hci Hcj.
  pose proof (inv_lock p HI i pci Hi Hci).
  pose proof (inv_lock p HI j pcj Hj Hcj).
  congruence.
Qed.

Lemma before_store_critical (pc : Pc) :
  before_store pc = true -> in_critical_section pc = true.
Proof. destruct pc; cbn; congruence. Qed.
Ltac moved Hpc H :=
  destruct (lookup_moved _ _ _ _ _ _ Hpc H) as [[-> ->]|[? ?]]; clear H.

(** The invariant survives every action. *)
Lemma Inv_step (i : nat) (p : Proc) : Inv p -> Inv (step i p).
Proof.
  intros HI.
  destruct (step_moves i p) as [->|(pc & pc' & c' & l' & Hpc & Hmove & ->)];
    [exact HI|].
  assert (forall j x, j <> i -> invocations p !! j = Some x ->
          in_critical_section pc = true -> in_critical_section x = false)
    as Halone.
  { intros j x Hne Hj Hcs.
    destruct (in_critical_section x) eqn:Hx; [|reflexivity].
    exfalso. apply Hne.
    exact (critical_section_exclusive p j i x pc HI Hj Hpc Hx Hcs). }
  split; cbn.
  - (* the lock *)
    intros j x Hj Hx. moved Hpc Hj.
    + pose proof (inv_lock p HI i pc Hpc) as Hold.
      destruct Hmove; cbn in *; try discriminate; auto.
    + pose proof (inv_lock p HI j x ltac:(eassumption) Hx) as Hold.
      destruct Hmove; cbn in *; try congruence.
      rewrite (Halone j x) in Hx by auto. discriminate.
  - (* the bound *)
    intros j x id Hj Howns. moved Hpc Hj.
    + destruct (owns_moved _ _ _ _ _ _ _ Hmove Howns) as [[-> ->]|Hold].
      * inversion Hmove; subst; reflexivity.
      * pose proof (inv_bound p HI i pc id Hpc Hold) as Hb.
        pose proof (inv_loaded p HI i) as Hl.
        destruct Hmove; cbn in *; try tauto; try lia.
        specialize (Hl _ _ Hpc). lia.
    + pose proof (inv_bound p HI j x id ltac:(eassumption) Howns) as Hb.
      destruct (moves_from_critical_section _ _ _ _ _ _ Hmove)
        as [Hcs|(-> & _ & _)]; [|exact Hb].
      pose proof (Halone j x ltac:(assumption) ltac:(eassumption) Hcs) as Hx.
      destruct (before_store x) eqn:Hbs;
        [apply before_store_critical in Hbs; congruence|].
      destruct Hmove; cbn in *; try lia.
      pose proof (inv_loaded p HI i _ _ Hpc). lia.
  - (* the loaded value *)
    intros j id loaded Hj.
    destruct (lookup_moved _ _ _ _ _ _ Hpc Hj) as [[-> <-]|[? ?]].
    + inversion Hmove; subst; reflexivity.
    + pose proof (inv_loaded p HI j id loaded ltac:(eassumption)) as Hl.
      destruct (moves_from_critical_section _ _ _ _ _ _ Hmove)
        as [Hcs|(-> & _ & _)]; [|exact Hl].
      pose proof (Halone j _ ltac:(assumption) ltac:(eassumption) Hcs) as Hx.
      discriminate Hx.
  - (* distinct values *)
    assert (forall j x idi idj, j <> i -> invocations p !! j = Some x ->
            owns (agent p) pc' idi -> owns (agent p) x idj -> idi <> idj)
      as Hfresh.
    { intros j x idi idj Hne Hj Hi Hx.
      destruct (owns_moved _ _ _ _ _ _ _ Hmove Hi) as [[-> ->]|Hold].
      - pose proof (inv_bound p HI j x idj Hj Hx) as Hb.
        destruct (before_store x) eqn:Hbs;
          [apply before_store_critical in Hbs;
           rewrite (Halone j x Hne Hj eq_refl) in Hbs; discriminate|].
        lia.
      - exact (inv_distinct p HI i j pc x idi idj (not_eq_sym Hne) Hpc Hj Hold Hx). }
    intros j k xj xk idj idk Hne Hj Hk Hoj Hok.
    moved Hpc Hj; moved Hpc Hk; try congruence.
    + eapply Hfresh; eauto.
    + apply not_eq_sym. eapply Hfresh; eauto.
    + eapply (inv_distinct p HI j k); eauto.
  - (* the names returned *)
    intros j name Hj.
    destruct (lookup_moved _ _ _ _ _ _ Hpc Hj) as [[-> <-]|[? ?]].
    + inversion Hmove; subst. eexists. cbn. eauto.
    + eapply (inv_returned p HI); eauto.
Qed.
Lemma Inv_start (counter : nat) (self_worker_name : option string) (n : nat) :
  Inv (start counter self_worker_name n).
Proof.
  split; cbn; intros;
    repeat match goal with
           | Hl : replicate _ _ !! _ = Some _ |- _ =>
               apply lookup_replicate in Hl; destruct Hl as [Hl _];
               try discriminate Hl; try subst
           end;
    cbn in *; try discriminate; try tauto.
Qed.

Lemma Inv_run (schedule : list nat) (p : Proc) : Inv p -> Inv (run schedule p).
Proof.
  unfold run. revert p.
  induction schedule as [|i schedule IH]; intros p HI; cbn; [exact HI|].
  apply IH. apply Inv_step. exact HI.
Qed.

(** No action changes the name of the RPC agent. *)
Lemma agent_run (schedule : list nat) (p : Proc) : agent (run schedule p) = agent p.
Proof.
  unfold run. revert p.
  induction schedule as [|i schedule IH]; intros p; cbn; [reflexivity|].
  rewrite IH.
  destruct (step_moves i p) as [->|(? & ? & ? & ? & _ & _ & ->)]; reflexivity.
Qed.

(** An invocation that runs alone does what the sequential function does:
    it returns the name made of the worker name and the old counter, and
    leaves the counter one higher. *)
Lemma solo_invocation_agrees {W : Type} `{NodeEnv W} (s : St W) (me : string) :
  get_worker_name (world s) = Ok me ->
  let p := run [0; 0; 0; 0; 0; 0] (start (_NEXT_LOCAL_ID s) (Some me) 1) in
  result (_gen_global_unique_name s) =
    match invocations p !! 0 with
    | Some (Returned name) => Ok name
    | _ => Raise (Exn "RuntimeError" "did not return")
    end /\
  _NEXT_LOCAL_ID (final (_gen_global_unique_name s)) = next_local_id p.
Proof.
  intros Hme.
  unfold _gen_global_unique_name, bind, fetch_and_increment, read_out, call_out, ret.
  cbn. rewrite Hme. split; reflexivity.
Qed.

(** C5: start any number of invocations of the allocator on one node and
    let them interleave in any way.  Whenever two of them have returned,
    each name is the worker name, an underscore and a counter value, the
    two counter values differ, and so do the two names. *)
Theorem names_pairwise_distinct
    (counter : nat) (self_worker_name : option string) (n : nat)
    (schedule : list nat) (i j : nat) (name_i name_j : string) :
  i <> j ->
  invocations (run schedule (start counter self_worker_name n)) !! i
    = Some (Returned name_i) ->
  invocations (run schedule (start counter self_worker_name n)) !! j
    = Some (Returned name_j) ->
  exists me id_i id_j,
    self_worker_name = Some me /\
    name_i = me +:+ "_" +:+ str_of_nat id_i /\
    name_j = me +:+ "_" +:+ str_of_nat id_j /\
    id_i <> id_j /\
    name_i <> name_j.
Proof.
  intros Hne Hi Hj.
  pose proof (Inv_run schedule _ (Inv_start counter self_worker_name n)) as HI.
  pose proof (agent_run schedule (start counter self_worker_name n)) as Hagent.
  cbn in Hagent.
  destruct (inv_returned _ HI i name_i Hi) as (id_i & Hoi).
  destruct (inv_returned _ HI j name_j Hj) as (id_j & Hoj).
  pose proof (inv_distinct _ HI i j _ _ id_i id_j Hne Hi Hj Hoi Hoj) as Hids.
  cbn in Hoi, Hoj. rewrite Hagent in Hoi, Hoj.
  destruct Hoi as (me & Hme & ->). destruct Hoj as (me' & Hme' & ->).
  assert (me' = me) as -> by congruence.
  exists me, id_i, id_j. repeat split; try assumption.
  intros Heq. apply Hids. exact (name_inj _ _ _ Heq).
Qed.
End Allocator.

(** ** The template instantiator on a node *)

Section Codegen.

(** What [_instantiate_template] does on a node whose generator is the one
    modelled above: with an interface and a generator in order it returns
    the class built from its three arguments and registers its module. *)
Lemma instantiate_template_on_node
    (name : string) (iface : option PyClass) (flag : PyVal) (s : St Node)
    (cls : RemoteModuleCls) :
  result (_instantiate_template name iface flag s) = Ok cls ->
  exists c,
    iface = Some c /\
    cls = mkCls ("_RemoteModule_" +:+ name) iface flag (forwarders_of c) /\
    nd_modules (world (final (_instantiate_template name iface flag s)))
      !! ("_RemoteModule_" +:+ name)
      = Some (mkGenerated ("_RemoteModule_" +:+ name) cls).
Proof.
  unfold _instantiate_template, bind, call_out, ret. cbn.
  unfold node_instantiate_remote_module_template.
  destruct iface as [c|]; [|discriminate].
  destruct (nd_codegen_fault (world s)); [discriminate|].
  cbn. intros Hcls. injection Hcls as <-.
  exists c. split; [reflexivity|]. split; [reflexivity|].
  apply lookup_insert_eq.
Qed.

(** C7: two instantiations with the same name, interface and flag, on any
    two nodes in any two states, that both return a class return the same
    class, with the same forwarding methods; each is registered under the
    module name [_RemoteModule_] followed by the name, a name that
    determines the module name and is determined by it. *)
Theorem instantiate_template_deterministic
    (name : string) (iface : option PyClass) (flag : PyVal)
    (s1 s2 : St Node) (cls1 cls2 : RemoteModuleCls) :
  result (_instantiate_template name iface flag s1) = Ok cls1 ->
  result (_instantiate_template name iface flag s2) = Ok cls2 ->
  cls1 = cls2 /\
  rm_methods cls1 = rm_methods cls2 /\
  rm_module cls1 = "_RemoteModule_" +:+ name /\
  nd_modules (world (final (_instantiate_template name iface flag s1)))
    !! ("_RemoteModule_" +:+ name)
    = Some (mkGenerated ("_RemoteModule_" +:+ name) cls1) /\
  nd_modules (world (final (_instantiate_template name iface flag s2)))
    !! ("_RemoteModule_" +:+ name)
    = Some (mkGenerated ("_RemoteModule_" +:+ name) cls2) /\
  forall name' (s' : St Node) cls',
    result (_instantiate_template name' iface flag s') = Ok cls' ->
    rm_module cls' = rm_module cls1 -> name' = name.
Proof.
  intros H1 H2.
  destruct (instantiate_template_on_node _ _ _ _ _ H1) as (c1 & Hi1 & -> & Hreg1).
  destruct (instantiate_template_on_node _ _ _ _ _ H2) as (c2 & Hi2 & -> & Hreg2).
  assert (c2 = c1) as -> by congruence.
  repeat split; try assumption.
  intros name' s' cls' H' Hmod.
  destruct (instantiate_template_on_node _ _ _ _ _ H') as (c' & _ & -> & _).
  cbn in Hmod. exact (append_inj_r _ _ _ Hmod).
Qed.
End Codegen.

(** ** The theorems at work on the fake mesh *)

Ltac in_trace := vm_compute; repeat (first [left; reflexivity | right]).

Lemma RemoteModule_returns_after_both_witness :
  exists remote_module,
    result run_scriptable = Ok remote_module /\
    exists before name iface flag fut generated creation module_rref,
      trace run_scriptable =
        before ++
        [E_rpc_async "worker1" (H_instantiate_template name iface flag) (Ok fut);
         E_instantiate_remote_module_template
           ("_RemoteModule_" +:+ name) iface flag (Ok generated);
         creation;
         E_new_instance (_RemoteModule generated) module_rref flag (Ok remote_module);
         E_wait fut (Ok tt)] /\
      is_creation creation = true /\
      yields creation = Some module_rref /\
      local_only before = true.
Proof.
  eexists.
  assert (result run_scriptable = Ok _) as Hok by (vm_compute; reflexivity).
  split; [exact Hok|].
  exact (RemoteModule_returns_after_both
           "worker1" create_script_module None None None None (mesh0 true) _ Hok).
Defined.

Lemma RemoteModule_sanity_check_witness :
  run_no_rpc =
    mkOutcome (Raise (Exn "AssertionError" "RemoteModule only works in RPC."))
              mesh_no_rpc [E_is_current_rpc_agent_set false] /\
  (head (trace run_remote_fault) = Some (E_is_current_rpc_agent_set true) /\
   forall e, result run_remote_fault = Raise e ->
     exists ev, last (trace run_remote_fault) = Some ev /\ raised_by ev = Some e).
Proof.
  split.
  - exact (RemoteModule_sanity_check
             "worker1" create_module None None None None mesh_no_rpc).
  - exact (RemoteModule_sanity_check
             "worker1" create_module None None None None
             mesh_remote_codegen_fault).
Defined.

Lemma RemoteModule_raises_when_future_fails_witness :
  let fut := mkFuture 0 in
  let e := Exn "TemplateGenerationError" "codegen failed" in
  In (E_wait fut (Raise e)) (trace run_remote_fault) /\
  result run_remote_fault = Raise e /\
  last (trace run_remote_fault) = Some (E_wait fut (Raise e)) /\
  (exists name iface flag generated,
     In (E_instantiate_remote_module_template name iface flag (Ok generated))
        (trace run_remote_fault)) /\
  (exists creation module_rref,
     In creation (trace run_remote_fault) /\ yields creation = Some module_rref).
Proof.
  cbv zeta.
  assert (In (E_wait (mkFuture 0)
                (Raise (Exn "TemplateGenerationError" "codegen failed")))
             (trace run_remote_fault)) as Hin by in_trace.
  split; [exact Hin|].
  exact (RemoteModule_raises_when_future_fails
           "worker1" create_module None None None None
           mesh_remote_codegen_fault _ _ Hin).
Defined.

Lemma RemoteModule_dispatches_on_flag_witness :
  (In instantiated_locally (trace run_scriptable) /\
   List.filter is_creation (trace run_scriptable) = [sent_creation] /\
   let handled :=
     run_handler
       (H_script_module_creator_wrapper
          create_script_module (Some MyModuleInterface) [] ∅)
       (peer_state (fresh_peer "worker1")) in
   trace handled =
     [E_call create_script_module [] ∅ (Ok (VObj 0));
      E_jit_script (VObj 0) (Ok (VObj 1));
      E_RRef (VObj 1) (Some MyModuleInterface)
        (Ok (mkRRef "worker1" 0 (Some MyModuleInterface)))] /\
   result handled = Ok (inr (mkRRef "worker1" 0 (Some MyModuleInterface)))) /\
  (In instantiated_plain_locally (trace run_plain) /\
   List.filter is_creation (trace run_plain) = [sent_plain_creation] /\
   is_ok (result run_plain) = true /\
   held_on "worker1" (world (final run_plain)) (mkRRef "worker1" 0 None)
     (Deferred create_module [] ∅) /\
   factory_calls_on "worker1" (world (final run_plain)) = []).
Proof.
  assert (In instantiated_locally (trace run_scriptable)) as Hscriptable
    by in_trace.
  assert (In instantiated_plain_locally (trace run_plain)) as Hplain
    by in_trace.
  destruct (RemoteModule_dispatches_on_flag (W':=Node)
              "worker1" create_script_module None None None None (mesh0 true)
              _ _ _ _ Hscriptable)
    as ((r & Hone) & Hhandler & _).
  destruct (RemoteModule_dispatches_on_flag (W':=Node)
              "worker1" create_module None None None None (mesh0 false)
              _ _ _ _ Hplain)
    as ((r' & Hone') & _ & Hdeferred).
  split.
  - split; [exact Hscriptable|]. split.
    + unfold run_scriptable. rewrite Hone. pose proof Hone as Hr. vm_compute in Hr.
      injection Hr as <-. reflexivity.
    + destruct (Hhandler (peer_state (fresh_peer "worker1")))
        as (_ & Hsuccess & _).
      destruct (Hsuccess (VObj 0) eq_refl) as (_ & Hwrapped).
      exact (Hwrapped (VObj 1) eq_refl).
  - split; [exact Hplain|]. split.
    + unfold run_plain. rewrite Hone'. pose proof Hone' as Hr. vm_compute in Hr.
      injection Hr as <-. reflexivity.
    + split; [reflexivity|].
      assert (In sent_plain_creation (trace run_plain)) as Hsent by in_trace.
      destruct (Hdeferred (mesh0 false) _ Hsent) as (Hheld & Hcalls).
      split; [exact Hheld|]. rewrite Hcalls. reflexivity.
Defined.

Lemma names_pairwise_distinct_witness :
  0 <> 1 /\
  Alloc.invocations (Alloc.run taking_turns (Alloc.start 0 (Some "worker0") 2)) !! 0
    = Some (Alloc.Returned "worker0_0") /\
  Alloc.invocations (Alloc.run taking_turns (Alloc.start 0 (Some "worker0") 2)) !! 1
    = Some (Alloc.Returned "worker0_1") /\
  exists me id_i id_j,
    Some "worker0" = Some me /\
    "worker0_0" = me +:+ "_" +:+ str_of_nat id_i /\
    "worker0_1" = me +:+ "_" +:+ str_of_nat id_j /\
    id_i <> id_j /\
    "worker0_0" <> "worker0_1".
Proof.
  assert (0 <> 1) as Hne by lia.
  assert (Alloc.invocations
            (Alloc.run taking_turns (Alloc.start 0 (Some "worker0") 2)) !! 0
          = Some (Alloc.Returned "worker0_0")) as H0 by reflexivity.
  assert (Alloc.invocations
            (Alloc.run taking_turns (Alloc.start 0 (Some "worker0") 2)) !! 1
          = Some (Alloc.Returned "worker0_1")) as H1 by reflexivity.
  split; [exact Hne|]. split; [exact H0|]. split; [exact H1|].
  exact (names_pairwise_distinct 0 (Some "worker0") 2 taking_turns 0 1
           "worker0_0" "worker0_1" Hne H0 H1).
Defined.

Lemma RemoteModule_name_resolution_witness :
  _is_current_rpc_agent_set (world (mesh0 true)) = true /\
  is_ok (get_return_type_from_callable create_script_module (world (mesh0 true)))
    = true /\
  get_worker_name (world (mesh0 true)) = Ok "worker0" /\
  "worker0_0" = "worker0" +:+ "_" +:+ str_of_nat (_NEXT_LOCAL_ID (mesh0 true)) /\
  (exists iface r,
     In (E_rpc_async "worker1"
           (H_instantiate_template "worker0_0" iface (flag_of iface)) r)
        (trace run_scriptable)) /\
  (forall ev, In ev (trace run_scriptable) ->
     match ev with
     | E_rpc_async _ h _ =>
         exists iface flag, h = H_instantiate_template "worker0_0" iface flag
     | E_instantiate_remote_module_template generated_module_name _ _ _ =>
         generated_module_name = "_RemoteModule_" +:+ "worker0_0"
     | _ => True
     end) /\
  (is_Some (@None string) ->
   _NEXT_LOCAL_ID (final run_scriptable) = _NEXT_LOCAL_ID (mesh0 true)) /\
  (@None string = None ->
   _NEXT_LOCAL_ID (final run_scriptable) = _NEXT_LOCAL_ID (mesh0 true) + 1 /\
   _gen_global_unique_name (mesh0 true) =
     mkOutcome (Ok "worker0_0")
               (mkSt (world (mesh0 true)) (_NEXT_LOCAL_ID (mesh0 true) + 1))
               [E_get_worker_name (get_worker_name (world (mesh0 true)))]).
Proof.
  assert (_is_current_rpc_agent_set (world (mesh0 true)) = true)
    as Hset by reflexivity.
  assert (is_ok (get_return_type_from_callable
                   create_script_module (world (mesh0 true))) = true)
    as Hinfer by reflexivity.
  assert (get_worker_name (world (mesh0 true)) = Ok "worker0")
    as Hme by reflexivity.
  assert ("worker0_0"
          = "worker0" +:+ "_" +:+ str_of_nat (_NEXT_LOCAL_ID (mesh0 true)))
    as Hname by reflexivity.
  split; [exact Hset|]. split; [exact Hinfer|]. split; [exact Hme|].
  split; [exact Hname|].
  exact (RemoteModule_name_resolution
           "worker1" create_script_module None None None None (mesh0 true)
           "worker0_0" Hset (fun _ => Hinfer)
           (ex_intro _ "worker0" (conj Hme Hname))).
Defined.

Lemma instantiate_template_deterministic_witness :
  let cls :=
    mkCls "_RemoteModule_worker0_0" (Some MyModuleInterface) (VBool true)
      [mkForwarder "forward" ["self"; "x"] Blocking;
       mkForwarder "forward_async" ["self"; "x"] Async] in
  let s1 := mkSt (fresh_node (Some "worker0")) 0 in
  let run1 :=
    _instantiate_template "worker0_0" (Some MyModuleInterface) (VBool true) s1 in
  let run2 :=
    _instantiate_template "worker0_0" (Some MyModuleInterface) (VBool true)
                          busy_node in
  result run1 = Ok cls /\
  result run2 = Ok cls /\
  cls = cls /\
  rm_methods cls = rm_methods cls /\
  rm_module cls = "_RemoteModule_" +:+ "worker0_0" /\
  nd_modules (world (final run1)) !! ("_RemoteModule_" +:+ "worker0_0")
    = Some (mkGenerated ("_RemoteModule_" +:+ "worker0_0") cls) /\
  nd_modules (world (final run2)) !! ("_RemoteModule_" +:+ "worker0_0")
    = Some (mkGenerated ("_RemoteModule_" +:+ "worker0_0") cls) /\
  forall name' (s' : St Node) cls',
    result (_instantiate_template name' (Some MyModuleInterface) (VBool true) s')
      = Ok cls' ->
    rm_module cls' = rm_module cls -> name' = "worker0_0".
Proof.
  cbv zeta.
  assert (result (_instantiate_template "worker0_0" (Some MyModuleInterface)
                    (VBool true) (mkSt (fresh_node (Some "worker0")) 0))
          = Ok (mkCls "_RemoteModule_worker0_0" (Some MyModuleInterface)
                  (VBool true)
                  [mkForwarder "forward" ["self"; "x"] Blocking;
                   mkForwarder "forward_async" ["self"; "x"] Async]))
    as H1 by (vm_compute; reflexivity).
  assert (result (_instantiate_template "worker0_0" (Some MyModuleInterface)
                    (VBool true) busy_node)
          = Ok (mkCls "_RemoteModule_worker0_0" (Some MyModuleInterface)
                  (VBool true)
                  [mkForwarder "forward" ["self"; "x"] Blocking;
                   mkForwarder "forward_async" ["self"; "x"] Async]))
    as H2 by (vm_compute; reflexivity).
  split; [exact H1|]. split; [exact H2|].
  exact (instantiate_template_deterministic
           "worker0_0" (Some MyModuleInterface) (VBool true)
           (mkSt (fresh_node (Some "worker0")) 0) busy_node _ _ H1 H2).
Defined.

Lemma RemoteModule_instantiates_alike_on_both_sides_witness :
  In sent_template (trace run_scriptable) /\
  exists name iface flag,
    "worker1" = "worker1" /\
    H_instantiate_template "worker0_0" (Some MyModuleInterface) (VBool true)
      = H_instantiate_template name iface flag /\
    (forall generated_module_name iface' flag' r',
       In (E_instantiate_remote_module_template
             generated_module_name iface' flag' r')
          (trace run_scriptable) ->
       generated_module_name = "_RemoteModule_" +:+ name /\
       iface' = iface /\ flag' = flag) /\
    forall s' : St Node,
      let remote :=
        instantiate_remote_module_template
          ("_RemoteModule_" +:+ name) iface flag (world s') in
      trace (run_handler
               (H_instantiate_template "worker0_0" (Some MyModuleInterface)
                  (VBool true)) s') =
        [E_instantiate_remote_module_template
           ("_RemoteModule_" +:+ name) iface flag (fst remote)] /\
      forall generated_module_name iface' flag' generated,
        In (E_instantiate_remote_module_template
              generated_module_name iface' flag' (Ok generated))
           (trace run_scriptable) ->
        fst remote = Ok generated ->
        result (run_handler
                  (H_instantiate_template "worker0_0" (Some MyModuleInterface)
                     (VBool true)) s')
          = Ok (inl (_RemoteModule generated)).
Proof.
  assert (In sent_template (trace run_scriptable)) as Hin by in_trace.
  split; [exact Hin|].
  exact (RemoteModule_instantiates_alike_on_both_sides (W':=Node)
           "worker1" create_script_module None None None None (mesh0 true)
           _ _ _ Hin).
Defined.

Lemma RemoteModule_normalizes_arguments_witness :
  In sent_creation (trace run_scriptable) /\
  exists iface,
    H_script_module_creator_wrapper
      create_script_module (Some MyModuleInterface) [] ∅
    = H_script_module_creator_wrapper
        create_script_module iface (default [] None) (default ∅ None) /\
    forall s' : St Mesh,
      head (trace (run_handler
                     (H_script_module_creator_wrapper
                        create_script_module (Some MyModuleInterface) [] ∅) s')) =
        Some (E_call create_script_module (default [] None) (default ∅ None)
                (fst (call_creator create_script_module (default [] None)
                        (default ∅ None) (world s')))).
Proof.
  assert (In sent_creation (trace run_scriptable)) as Hin by in_trace.
  split; [exact Hin|].
  exact (RemoteModule_normalizes_arguments
           "worker1" create_script_module None None None None (mesh0 true)
           sent_creation Hin).
Defined.

Lemma RemoteModule_flag_is_attribute_witness :
  In sent_plain_template (trace run_plain) /\
  exists name iface,
    let flag := getattr iface "__torch_script_interface__" (VBool false) in
    H_instantiate_template "worker0_0" (Some PlainInterface) (VBool false)
      = H_instantiate_template name iface flag /\
    get_return_type_from_callable create_module (world (mesh0 false)) = Ok iface /\
    (forall ev, In ev (trace run_plain) ->
       match ev with
       | E_instantiate_remote_module_template _ _ f _ => f = flag
       | E_new_instance _ _ f _ => f = flag
       | E_rpc_sync _ _ _ => truthy flag = true
       | E_rpc_remote _ _ _ _ _ => truthy flag = false
       | _ => True
       end) /\
    (match iface with
     | Some c => cls_attrs c !! "__torch_script_interface__" = None
     | None => True
     end ->
     flag = VBool false /\
     (forall ev, In ev (trace run_plain) -> is_rpc_sync ev = false) /\
     (is_ok (result run_plain) = true ->
      exists module_rref,
        In (E_rpc_remote "worker1" create_module (default [] None)
              (default ∅ None) (Ok module_rref))
           (trace run_plain))).
Proof.
  assert (In sent_plain_template (trace run_plain)) as Hin by in_trace.
  split; [exact Hin|].
  exact (RemoteModule_flag_is_attribute
           "worker1" create_module None None None None (mesh0 false)
           _ _ _ Hin).
Defined.

(** * Further properties of RemoteModule *)

Section OrchestratorMore.
Context {W : Type} `{NodeEnv W} `{RpcLayer W}.
Variables (to : string) (module_creator : Callable).
Variables (args : option (list PyVal)) (kwargs : option (gmap string PyVal)).
Variables (global_unique_name : option string).
Variables (module_interface_cls : option PyClass).

Local Abbreviation run_of s :=
  (RemoteModule to module_creator args kwargs global_unique_name
                module_interface_cls s).

Local Abbreviation runs_of s :=
  (RemoteModule_runs to module_creator args kwargs global_unique_name
                     module_interface_cls s).

(** X1: a call moves the counter by one exactly when it passes the
    assertion and no name was given, whatever happens afterwards: a call
    that fails later, even at the lookup of the worker name, has used up a
    counter value.  In every other case the counter is untouched. *)
Theorem RemoteModule_counter_effect (s : St W) :
  _NEXT_LOCAL_ID (final (run_of s)) =
    match global_unique_name with
    | Some _ => _NEXT_LOCAL_ID s
    | None =>
        if _is_current_rpc_agent_set (world s)
        then _NEXT_LOCAL_ID s + 1
        else _NEXT_LOCAL_ID s
    end.
Proof.
  destruct (runs_of s); resolve_prologue;
    repeat match goal with
           | E : global_unique_name = _ |- _ => rewrite E; clear E
           | E : _is_current_rpc_agent_set _ = _ |- _ => rewrite E; clear E
           end;
    try reflexivity;
    destruct global_unique_name; reflexivity.
Qed.
(** X2: the call itself never calls the creator, never scripts a module
    and never makes an [rpc.RRef]: those happen on the remote node only.
    What it sends goes to the one worker [to], in at most three calls of
    the RPC layer. *)
Theorem RemoteModule_keeps_creation_remote (s : St W) (ev : Event) :
  In ev (trace (run_of s)) ->
  match ev with
  | E_call _ _ _ _ | E_jit_script _ _ | E_RRef _ _ _ => False
  | E_rpc_async to' _ _ | E_rpc_sync to' _ _ | E_rpc_remote to' _ _ _ _ =>
      to' = to /\ length (List.filter is_network (trace (run_of s))) <= 3
  | _ => True
  end.
Proof.
  intros Hin.
  destruct (runs_of s); resolve_prologue; explicit_events;
    pick_event; try done; cbn; split; try reflexivity; lia.
Qed.

(** X3: the first collaborator call that raises ends the call: it is the
    last call made, and its exception is what the call raises. *)
Theorem RemoteModule_stops_at_first_failure (s : St W) (ev : Event) (e : exn) :
  In ev (trace (run_of s)) ->
  raised_by ev = Some e ->
  result (run_of s) = Raise e /\ last (trace (run_of s)) = Some ev.
Proof.
  intros Hin Hraised.
  destruct (runs_of s); resolve_prologue; explicit_events;
    pick_event; cbn in Hraised; simplify_eq; try done.
  all: destruct waited; cbn in *; simplify_eq; done.
Qed.

(** X4: the future of the asynchronous RPC is waited for exactly when the
    instance has been constructed.  A call that fails at the local
    instantiation, at the creation request or in the constructor returns
    without ever waiting for the remote instantiation it has started. *)
Theorem RemoteModule_waits_iff_constructed
    (s : St W) (to' : string) (h : RpcHandler) (fut : Future) :
  In (E_rpc_async to' h (Ok fut)) (trace (run_of s)) ->
  (exists r, In (E_wait fut r) (trace (run_of s))) <->
  (exists cls module_rref flag remote_module,
     In (E_new_instance cls module_rref flag (Ok remote_module))
        (trace (run_of s))).
Proof.
  intros Hin.
  destruct (runs_of s); resolve_prologue; explicit_events; pick_event.
  all: split;
    [ intros (r & Hw); pick_event; try done; do 4 eexists; find_event
    | intros (cls & rr & fl & rm & Hn); pick_event; try done;
      eexists; find_event ].
Qed.

(** X5: a lookup is made only for what the caller left out.  The name of
    this worker is read only when no name was given, and the return type is
    inferred, from the creator, only when no interface was given. *)
Theorem RemoteModule_looks_up_only_what_is_missing (s : St W) (ev : Event) :
  In ev (trace (run_of s)) ->
  match ev with
  | E_get_worker_name _ => global_unique_name = None
  | E_get_return_type_from_callable f _ =>
      module_interface_cls = None /\ f = module_creator
  | _ => True
  end.
Proof.
  intros Hin.
  destruct (runs_of s); resolve_prologue; explicit_events;
    pick_event; done.
Qed.
End OrchestratorMore.

(** * Further properties of the handlers *)

Section Handlers.
Context {W : Type} `{NodeEnv W}.

(** X6: [_script_module_creator_wrapper] makes a remote reference only of
    the script module of what the creator returned, typed by the interface
    it was given, and returns what [rpc.RRef] returned.  When the creator
    or the scripting raises it stops there, with that exception, and no
    reference is made.  It leaves the counter of the node alone. *)
Theorem script_module_creator_wrapper_wraps_the_script
    (module_creator : Callable) (iface : option PyClass)
    (a : list PyVal) (k : gmap string PyVal) (s : St W) :
  let run := _script_module_creator_wrapper module_creator iface a k s in
  _NEXT_LOCAL_ID (final run) = _NEXT_LOCAL_ID s /\
  (forall v hint r, In (E_RRef v hint r) (trace run) ->
     hint = iface /\ result run = r /\
     exists module,
       trace run = [E_call module_creator a k (Ok module);
                    E_jit_script module (Ok v);
                    E_RRef v iface r]) /\
  (forall ev e, In ev (trace run) -> raised_by ev = Some e ->
     result run = Raise e /\ last (trace run) = Some ev) /\
  (forall module_rref, result run = Ok module_rref ->
     exists v, In (E_RRef v iface (Ok module_rref)) (trace run)).
Proof.
  cbv zeta. rewrite script_module_creator_wrapper_runs.
  destruct (call_creator module_creator a k (world s)) as [[module|e1] w1];
    [destruct (jit_script module w1) as [[sm|e2] w2];
     [destruct (RRef_new sm iface w2) as [[rr|e3] w3]|]|];
    cbn; (split; [reflexivity|]);
    (split; [intros v hint r Hin; pick_event; eauto |]);
    (split; [intros ev e Hin Hraised; pick_event; cbn in Hraised;
             simplify_eq; done |]);
    intros rref Hres; simplify_eq; eauto.
Qed.
End Handlers.

(** * Further properties of the allocator under interleaving *)

Section AllocatorMore.
Import Alloc.

(** An invocation that has stored the incremented counter. *)
Definition past_store (pc : Pc) : bool :=
  match pc with
  | AtRelease _ | AtName _ | Returned _ | Raised _ => true
  | _ => false
  end.

(** An invocation that has returned or raised. *)
Definition finished (pc : Pc) : bool :=
  match pc with Returned _ | Raised _ => true | _ => false end.

Definition stores (l : list Pc) : nat := length (List.filter past_store l).

(** What else holds of every process reached from [start initial _ _]:
    the holder of the lock is inside the [with] block, the counter is the
    initial one plus one for every invocation that has stored, and no value
    taken is below the initial counter. *)
Record Inv2 (initial : nat) (p : Proc) : Prop := mkInv2 {
  inv_holder : forall i,
    lock p = Some i ->
    exists pc, invocations p !! i = Some pc /\ in_critical_section pc = true;
  inv_count : next_local_id p = initial + stores (invocations p);
  inv_lower : forall i pc id,
    invocations p !! i = Some pc -> owns (agent p) pc id -> initial <= id
}.

Lemma stores_insert (l : list Pc) (i : nat) (x y : Pc) :
  l !! i = Some x ->
  stores (<[i := y]> l) + (if past_store x then 1 else 0) =
  stores l + (if past_store y then 1 else 0).
Proof.
  unfold stores. revert i.
  induction l as [|z l IH]; intros i Hi; [discriminate Hi|].
  destruct i as [|i].
  - injection Hi as ->. cbn.
    destruct (past_store x), (past_store y); cbn; lia.
  - specialize (IH i Hi).
    change (<[S i := y]> (z :: l)) with (z :: <[i := y]> l).
    cbn [List.filter].
    destruct (past_store z); cbn [length]; [|exact IH].
    cbn [Nat.add]. f_equal. exact IH.
Qed.

Lemma moves_change (i : nat) (p : Proc) (pc pc' : Pc) (c' : nat) (l' : option nat) :
  Moves i p pc pc' c' l' -> pc' <> pc.
Proof. destruct 1; discriminate. Qed.

Lemma Inv2_step (initial i : nat) (p : Proc) :
  Inv p -> Inv2 initial p -> Inv2 initial (step i p).
Proof.
  intros HI HJ.
  destruct (step_moves i p) as [->|(pc & pc' & c' & l' & Hpc & Hmove & ->)];
    [exact HJ|].
  pose proof (lookup_lt_Some _ _ _ Hpc) as Hlt.
  split; cbn [next_local_id lock agent invocations].
  - (* the holder *)
    intros k Hk.
    assert (lock p = Some k -> k <> i ->
            exists x, <[i:=pc']> (invocations p) !! k = Some x /\
                      in_critical_section x = true) as Hother.
    { intros Hold Hne. destruct (inv_holder _ _ HJ k Hold) as (x & Hx & Hcs).
      exists x. rewrite list_lookup_insert_ne by congruence. auto. }
    pose proof (inv_lock p HI i pc Hpc) as Hmine.
    destruct (decide (k = i)) as [->|Hne].
    + exists pc'. rewrite list_lookup_insert_eq by assumption.
      split; [reflexivity|].
      destruct Hmove; cbn in *; try reflexivity; try discriminate;
        destruct (inv_holder _ _ HJ i Hk) as (x & Hx & Hcs);
        rewrite Hpc in Hx; injection Hx as <-; discriminate Hcs.
    + destruct Hmove; cbn in *; try discriminate; try (apply Hother; assumption).
      congruence.
  - (* the count *)
    pose proof (stores_insert _ i pc pc' Hpc) as Hs.
    pose proof (inv_count _ _ HJ) as Hc.
    pose proof (inv_loaded p HI i) as Hl.
    destruct Hmove; cbn [past_store] in Hs; try lia.
    specialize (Hl _ _ Hpc). lia.
  - (* the lower bound *)
    intros j x id Hj Howns.
    destruct (lookup_moved _ _ _ _ _ _ Hpc Hj) as [[-> ->]|[Hne Hold]].
    + destruct (owns_moved _ _ _ _ _ _ _ Hmove Howns) as [[-> ->]|Hprev].
      * pose proof (inv_count _ _ HJ). lia.
      * exact (inv_lower _ _ HJ i pc id Hpc Hprev).
    + exact (inv_lower _ _ HJ j x id Hold Howns).
Qed.

Lemma stores_start (n : nat) : stores (replicate n AtAcquire) = 0.
Proof. unfold stores. induction n; cbn; auto. Qed.

Lemma Inv2_start (initial : nat) (self_worker_name : option string) (n : nat) :
  Inv2 initial (start initial self_worker_name n).
Proof.
  unfold start. split; cbn [next_local_id lock agent invocations].
  - discriminate.
  - rewrite stores_start. lia.
  - intros i pc id Hl. apply lookup_replicate in Hl as [-> _]. cbn. tauto.
Qed.

Lemma Inv2_run (initial : nat) (schedule : list nat) (p : Proc) :
  Inv p -> Inv2 initial p -> Inv2 initial (run schedule p).
Proof.
  unfold run. revert p.
  induction schedule as [|i schedule IH]; intros p HI HJ; cbn; [exact HJ|].
  apply IH; [apply Inv_step | apply Inv2_step]; assumption.
Qed.
Lemma length_run (schedule : list nat) (p : Proc) :
  length (invocations (run schedule p)) = length (invocations p).
Proof.
  unfold run. revert p.
  induction schedule as [|i schedule IH]; intros p; cbn; [reflexivity|].
  rewrite IH.
  destruct (step_moves i p) as [->|(? & ? & ? & ? & _ & _ & ->)];
    [reflexivity|]. cbn. apply length_insert.
Qed.

Lemma stores_all (l : list Pc) :
  (forall pc, In pc l -> past_store pc = true) -> stores l = length l.
Proof.
  unfold stores. induction l as [|x l IH]; intros Hall; [reflexivity|].
  cbn [List.filter]. rewrite (Hall x (or_introl eq_refl)). cbn [length].
  f_equal. apply IH. intros pc Hpc. apply Hall. right. exact Hpc.
Qed.

Lemma finished_past_store (pc : Pc) : finished pc = true -> past_store pc = true.
Proof. destruct pc; cbn; congruence. Qed.

(** An invocation that is inside the block, that reads the worker name, or
    that finds the lock free, moves. *)
Lemma step_changes (i : nat) (p : Proc) (pc : Pc) :
  invocations p !! i = Some pc ->
  finished pc = false ->
  (pc = AtAcquire -> lock p = None) ->
  step i p <> p.
Proof.
  intros Hpc Hfin Hfree Hsame.
  pose proof (lookup_lt_Some _ _ _ Hpc) as Hlt.
  destruct (step_moves i p) as [_|(pc0 & pc' & c' & l' & Hpc0 & Hmove & Heq)].
  - unfold step, set_pc in Hsame. rewrite Hpc in Hsame.
    destruct pc; try discriminate Hfin;
      try (specialize (Hfree eq_refl); rewrite Hfree in Hsame);
      try destruct (agent p);
      apply (f_equal (fun q => invocations q !! i)) in Hsame;
      cbn in Hsame; rewrite list_lookup_insert_eq in Hsame by assumption;
      rewrite Hpc in Hsame; discriminate Hsame.
  - rewrite Hsame in Heq.
    apply (f_equal (fun q => invocations q !! i)) in Heq.
    cbn in Heq. rewrite list_lookup_insert_eq in Heq by assumption.
    rewrite Hpc0 in Heq. injection Heq as Heq.
    exact (moves_change _ _ _ _ _ _ Hmove (eq_sym Heq)).
Qed.

(** X7: at any moment of any interleaving at most one invocation is
    inside the [with] block: between taking the lock and releasing it. *)
Theorem at_most_one_inside_the_with_block
    (counter : nat) (self_worker_name : option string) (n : nat)
    (schedule : list nat) (i j : nat) (pc_i pc_j : Pc) :
  invocations (run schedule (start counter self_worker_name n)) !! i = Some pc_i ->
  invocations (run schedule (start counter self_worker_name n)) !! j = Some pc_j ->
  in_critical_section pc_i = true ->
  in_critical_section pc_j = true ->
  i = j.
Proof.
  intros Hi Hj Hci Hcj.
  eapply critical_section_exclusive; eauto.
  apply Inv_run, Inv_start.
Qed.

(** X8: no update of the counter is lost.  After any interleaving the
    counter is its initial value plus the number of invocations that have
    stored; once all [n] invocations have finished it is the initial value
    plus [n]. *)
Theorem no_update_is_lost
    (counter : nat) (self_worker_name : option string) (n : nat)
    (schedule : list nat) :
  let p := run schedule (start counter self_worker_name n) in
  next_local_id p = counter + stores (invocations p) /\
  ((forall pc, In pc (invocations p) -> finished pc = true) ->
   next_local_id p = counter + n).
Proof.
  cbv zeta.
  pose proof (Inv2_run counter schedule _
                (Inv_start counter self_worker_name n)
                (Inv2_start counter self_worker_name n)) as HJ.
  split; [exact (inv_count _ _ HJ)|].
  intros Hall. rewrite (inv_count _ _ HJ), stores_all.
  - rewrite length_run. cbn. now rewrite length_replicate.
  - intros pc Hpc. apply finished_past_store, Hall, Hpc.
Qed.

(** X9: the counter value in a returned name lies between the initial
    counter and the current one: a name never repeats a value handed out
    before the invocations started, nor runs ahead of the counter. *)
Theorem returned_values_are_in_range
    (counter : nat) (self_worker_name : option string) (n : nat)
    (schedule : list nat) (i : nat) (name : string) :
  invocations (run schedule (start counter self_worker_name n)) !! i
    = Some (Returned name) ->
  exists me id,
    self_worker_name = Some me /\
    name = me +:+ "_" +:+ str_of_nat id /\
    counter <= id /\
    id < next_local_id (run schedule (start counter self_worker_name n)) /\
    id < counter + n.
Proof.
  intros Hi.
  pose proof (Inv_run schedule _ (Inv_start counter self_worker_name n)) as HI.
  pose proof (Inv2_run counter schedule _
                (Inv_start counter self_worker_name n)
                (Inv2_start counter self_worker_name n)) as HJ.
  destruct (inv_returned _ HI i name Hi) as (id & Hown).
  pose proof (inv_bound _ HI i _ id Hi Hown) as Hup.
  pose proof (inv_lower _ _ HJ i _ id Hi Hown) as Hlow.
  pose proof (inv_count _ _ HJ) as Hcount.
  assert (stores (invocations (run schedule (start counter self_worker_name n)))
          <= n) as Hle.
  { unfold stores.
    etransitivity; [apply List.filter_length_le|].
    rewrite length_run. cbn. now rewrite length_replicate. }
  cbn in Hown, Hup. rewrite agent_run in Hown. cbn in Hown.
  destruct Hown as (me & -> & ->).
  exists me, id. repeat split; try assumption; lia.
Qed.

(** X10: the lock is held only by an invocation inside the [with] block.
    An invocation that has returned or raised does not hold it, and once
    every invocation has finished the lock is free. *)
Theorem lock_is_held_inside_the_block_only
    (counter : nat) (self_worker_name : option string) (n : nat)
    (schedule : list nat) :
  let p := run schedule (start counter self_worker_name n) in
  (forall i, lock p = Some i ->
     exists pc,
       invocations p !! i = Some pc /\
       in_critical_section pc = true /\ finished pc = false) /\
  ((forall pc, In pc (invocations p) -> finished pc = true) -> lock p = None).
Proof.
  cbv zeta.
  pose proof (Inv2_run counter schedule _
                (Inv_start counter self_worker_name n)
                (Inv2_start counter self_worker_name n)) as HJ.
  assert (forall i,
    lock (run schedule (start counter self_worker_name n)) = Some i ->
    exists pc,
      invocations (run schedule (start counter self_worker_name n)) !! i
        = Some pc /\
      in_critical_section pc = true /\ finished pc = false) as Hheld.
  { intros i Hi. destruct (inv_holder _ _ HJ i Hi) as (pc & Hpc & Hcs).
    exists pc. repeat split; try assumption.
    destruct pc; cbn in *; congruence. }
  split; [exact Hheld|].
  intros Hall.
  destruct (lock (run schedule (start counter self_worker_name n)))
    as [i|] eqn:Hlock; [|reflexivity].
  destruct (Hheld i eq_refl) as (pc & Hpc & _ & Hfin).
  apply list_elem_of_lookup_2, list_elem_of_In in Hpc.
  rewrite (Hall pc Hpc) in Hfin. discriminate Hfin.
Qed.

(** X11: the allocator never deadlocks.  In any state reached by any
    interleaving, as long as some invocation has not finished there is an
    invocation whose next action changes the state. *)
Theorem allocator_never_deadlocks
    (counter : nat) (self_worker_name : option string) (n : nat)
    (schedule : list nat) (j : nat) (pc : Pc) :
  invocations (run schedule (start counter self_worker_name n)) !! j = Some pc ->
  finished pc = false ->
  exists i,
    step i (run schedule (start counter self_worker_name n))
    <> run schedule (start counter self_worker_name n).
Proof.
  intros Hj Hfin.
  pose proof (Inv_run schedule _ (Inv_start counter self_worker_name n)) as HI.
  pose proof (Inv2_run counter schedule _
                (Inv_start counter self_worker_name n)
                (Inv2_start counter self_worker_name n)) as HJ.
  destruct (lock (run schedule (start counter self_worker_name n)))
    as [i|] eqn:Hlock.
  - destruct (inv_holder _ _ HJ i Hlock) as (pc_i & Hi & Hcs).
    exists i. apply (step_changes i _ pc_i Hi).
    + destruct pc_i; cbn in *; congruence.
    + intros ->. discriminate Hcs.
  - exists j. apply (step_changes j _ pc Hj Hfin). intros _. exact Hlock.
Qed.

(** X12: an invocation that finds the lock free and is given six actions
    in a row, with none of another invocation in between, returns the name
    made of the worker name and the counter, leaves the counter one higher
    and the lock free, and touches no other invocation. *)
Theorem undisturbed_invocation_returns
    (i : nat) (p : Proc) (me : string) :
  invocations p !! i = Some AtAcquire ->
  lock p = None ->
  agent p = Some me ->
  run (replicate 6 i) p =
    mkProc (next_local_id p + 1) None (Some me)
           (<[i := Returned (me +:+ "_" +:+ str_of_nat (next_local_id p))]>
              (invocations p)).
Proof.
  intros Hpc Hlock Hagent.
  pose proof (lookup_lt_Some _ _ _ Hpc) as Hlt.
  unfold run. cbn [replicate foldl].
  unfold step at 6. rewrite Hpc, Hlock.
  unfold step at 5. cbn [invocations next_local_id lock agent].
  rewrite list_lookup_insert_eq by assumption.
  unfold set_pc. cbn [invocations next_local_id lock agent].
  rewrite list_insert_insert_eq.
  unfold step at 4. cbn [invocations next_local_id lock agent].
  rewrite list_lookup_insert_eq by assumption.
  unfold set_pc. cbn [invocations next_local_id lock agent].
  rewrite list_insert_insert_eq.
  unfold step at 3. cbn [invocations next_local_id lock agent].
  rewrite list_lookup_insert_eq by assumption.
  rewrite list_insert_insert_eq.
  unfold step at 2. cbn [invocations next_local_id lock agent].
  rewrite list_lookup_insert_eq by assumption.
  rewrite list_insert_insert_eq.
  unfold step. cbn [invocations next_local_id lock agent].
  rewrite list_lookup_insert_eq by assumption.
  rewrite Hagent. unfold set_pc. cbn [invocations next_local_id lock agent].
  rewrite list_insert_insert_eq. reflexivity.
Qed.
End AllocatorMore.

(** * Further properties of the names *)

Section Names.

Definition underscore : ascii := "_"%char.

Lemma digits_have_no_underscore (d : Decimal.uint) :
  ~ In underscore (list_ascii_of_string (NilEmpty.string_of_uint d)).
Proof.
  induction d; cbn; intros Hin;
    try (destruct Hin as [Hin|Hin]; [discriminate Hin | exact (IHd Hin)]).
  exact Hin.
Qed.

Lemma append_cons (c : ascii) (w s : string) :
  String c w +:+ s = String c (w +:+ s).
Proof. reflexivity. Qed.

Lemma append_nil (s : string) : "" +:+ s = s.
Proof. reflexivity. Qed.

Lemma underscore_in_the_middle (w d : string) :
  In underscore (list_ascii_of_string (w +:+ "_" +:+ d)).
Proof.
  induction w as [|c w IH].
  - rewrite append_nil, append_cons. left. reflexivity.
  - rewrite append_cons. right. exact IH.
Qed.

(** A name splits at its last underscore. *)
Lemma split_at_last_underscore (w1 w2 d1 d2 : string) :
  ~ In underscore (list_ascii_of_string d1) ->
  ~ In underscore (list_ascii_of_string d2) ->
  w1 +:+ "_" +:+ d1 = w2 +:+ "_" +:+ d2 ->
  w1 = w2 /\ d1 = d2.
Proof.
  intros H1 H2. revert w2.
  induction w1 as [|c1 w1 IH]; intros [|c2 w2] Heq;
    repeat (rewrite append_cons in Heq || rewrite append_nil in Heq).
  - injection Heq as Heq. auto.
  - injection Heq as _ Heq. exfalso. apply H1. rewrite Heq.
    apply underscore_in_the_middle.
  - injection Heq as _ Heq. exfalso. apply H2. rewrite <- Heq.
    apply underscore_in_the_middle.
  - injection Heq as -> Heq. destruct (IH w2 Heq) as [-> ->]. auto.
Qed.

(** X13: a name tells its worker and its counter value apart, whatever the
    worker is called: two names are equal only if both the worker names
    and the counter values are.  So the names of different workers, and the
    names one worker makes from different counter values, never meet. *)
Theorem global_unique_name_is_injective (w1 w2 : string) (a b : nat) :
  w1 +:+ "_" +:+ str_of_nat a = w2 +:+ "_" +:+ str_of_nat b <->
  w1 = w2 /\ a = b.
Proof.
  split.
  - intros Heq.
    destruct (split_at_last_underscore w1 w2 _ _
                (digits_have_no_underscore _) (digits_have_no_underscore _) Heq)
      as [-> Hd].
    split; [reflexivity | exact (str_of_nat_inj _ _ Hd)].
  - intros [-> ->]. reflexivity.
Qed.
End Names.

(** * Successive constructions *)

Section Successive.
Context {W : Type} `{NodeEnv W} `{RpcLayer W}.

(** The name a call without a given name sends, and the counter it
    leaves. *)
Lemma allocated_name_sent
    (to : string) (module_creator : Callable)
    (args : option (list PyVal)) (kwargs : option (gmap string PyVal))
    (module_interface_cls : option PyClass) (s : St W)
    (to' name : string) (iface : option PyClass) (flag : PyVal)
    (r : Result Future) :
  In (E_rpc_async to' (H_instantiate_template name iface flag) r)
     (trace (RemoteModule to module_creator args kwargs None
                          module_interface_cls s)) ->
  (exists me, name = me +:+ "_" +:+ str_of_nat (_NEXT_LOCAL_ID s)) /\
  _NEXT_LOCAL_ID (final (RemoteModule to module_creator args kwargs None
                                      module_interface_cls s))
    = _NEXT_LOCAL_ID s + 1.
Proof.
  intros Hin.
  destruct (RemoteModule_runs to module_creator args kwargs None
                              module_interface_cls s);
    resolve_prologue; explicit_events; pick_event; cbn; eauto.
Qed.

(** X14: two constructions in a row that are given no name never send
    the same name, whatever else differs between them: the target, the
    creator, the arguments, the interface, and even the name of the worker
    at the time of each. *)
Theorem successive_constructions_send_different_names
    (to1 to2 : string) (creator1 creator2 : Callable)
    (args1 args2 : option (list PyVal))
    (kwargs1 kwargs2 : option (gmap string PyVal))
    (iface1 iface2 : option PyClass) (s : St W)
    (t1 t2 name1 name2 : string) (c1 c2 : option PyClass) (f1 f2 : PyVal)
    (r1 r2 : Result Future) :
  let first := RemoteModule to1 creator1 args1 kwargs1 None iface1 s in
  let second := RemoteModule to2 creator2 args2 kwargs2 None iface2 (final first) in
  In (E_rpc_async t1 (H_instantiate_template name1 c1 f1) r1) (trace first) ->
  In (E_rpc_async t2 (H_instantiate_template name2 c2 f2) r2) (trace second) ->
  name1 <> name2.
Proof.
  cbv zeta. intros Hfirst Hsecond Hsame.
  destruct (allocated_name_sent _ _ _ _ _ _ _ _ _ _ _ Hfirst)
    as [(me1 & Hname1) Hcounter].
  destruct (allocated_name_sent _ _ _ _ _ _ _ _ _ _ _ Hsecond)
    as [(me2 & Hname2) _].
  rewrite Hcounter in Hname2. rewrite Hname1, Hname2 in Hsame.
  destruct (split_at_last_underscore _ _ _ _
              (digits_have_no_underscore _) (digits_have_no_underscore _) Hsame)
    as [_ Hdigits].
  apply str_of_nat_inj in Hdigits. lia.
Qed.
End Successive.

(** ** The further properties at work *)

Definition run_second : Outcome Mesh RemoteModuleInst :=
  RemoteModule "worker1" create_script_module None None None None
               (final run_scriptable).

Definition sent_second_template : Event :=
  E_rpc_async "worker1"
    (H_instantiate_template "worker0_1" (Some MyModuleInterface) (VBool true))
    (Ok (mkFuture 1)).

Definition failed_wait : Event :=
  E_wait (mkFuture 0) (Raise (Exn "TemplateGenerationError" "codegen failed")).

Lemma RemoteModule_keeps_creation_remote_witness :
  In sent_creation (trace run_scriptable) /\
  "worker1" = "worker1" /\
  length (List.filter is_network (trace run_scriptable)) <= 3.
Proof.
  assert (In sent_creation (trace run_scriptable)) as Hin by in_trace.
  split; [exact Hin|].
  exact (RemoteModule_keeps_creation_remote
           "worker1" create_script_module None None None None (mesh0 true)
           sent_creation Hin).
Defined.

Lemma RemoteModule_stops_at_first_failure_witness :
  In failed_wait (trace run_remote_fault) /\
  raised_by failed_wait
    = Some (Exn "TemplateGenerationError" "codegen failed") /\
  result run_remote_fault
    = Raise (Exn "TemplateGenerationError" "codegen failed") /\
  last (trace run_remote_fault) = Some failed_wait.
Proof.
  assert (In failed_wait (trace run_remote_fault)) as Hin by in_trace.
  assert (raised_by failed_wait
          = Some (Exn "TemplateGenerationError" "codegen failed"))
    as Hraised by reflexivity.
  split; [exact Hin|]. split; [exact Hraised|].
  exact (RemoteModule_stops_at_first_failure
           "worker1" create_module None None None None
           mesh_remote_codegen_fault failed_wait _ Hin Hraised).
Defined.

Lemma RemoteModule_waits_iff_constructed_witness :
  In sent_template (trace run_scriptable) /\
  ((exists r, In (E_wait (mkFuture 0) r) (trace run_scriptable)) <->
   (exists cls module_rref flag remote_module,
      In (E_new_instance cls module_rref flag (Ok remote_module))
         (trace run_scriptable))).
Proof.
  assert (In sent_template (trace run_scriptable)) as Hin by in_trace.
  split; [exact Hin|].
  exact (RemoteModule_waits_iff_constructed
           "worker1" create_script_module None None None None (mesh0 true)
           _ _ _ Hin).
Defined.

Lemma RemoteModule_looks_up_only_what_is_missing_witness :
  In (E_get_worker_name (Ok "worker0")) (trace run_scriptable) /\
  @None string = None.
Proof.
  assert (In (E_get_worker_name (Ok "worker0")) (trace run_scriptable))
    as Hin by in_trace.
  split; [exact Hin|].
  exact (RemoteModule_looks_up_only_what_is_missing
           "worker1" create_script_module None None None None (mesh0 true)
           _ Hin).
Defined.

Lemma at_most_one_inside_the_with_block_witness :
  Alloc.invocations (Alloc.run [0; 1] (Alloc.start 0 (Some "worker0") 2)) !! 0
    = Some Alloc.AtRead /\
  Alloc.in_critical_section Alloc.AtRead = true /\
  0 = 0.
Proof.
  assert (Alloc.invocations
            (Alloc.run [0; 1] (Alloc.start 0 (Some "worker0") 2)) !! 0
          = Some Alloc.AtRead) as H0 by reflexivity.
  assert (Alloc.in_critical_section Alloc.AtRead = true) as Hcs by reflexivity.
  split; [exact H0|]. split; [exact Hcs|].
  exact (at_most_one_inside_the_with_block
           0 (Some "worker0") 2 [0; 1] 0 0 _ _ H0 H0 Hcs Hcs).
Defined.

Lemma returned_values_are_in_range_witness :
  Alloc.invocations (Alloc.run taking_turns (Alloc.start 0 (Some "worker0") 2)) !! 1
    = Some (Alloc.Returned "worker0_1") /\
  exists me id,
    Some "worker0" = Some me /\
    "worker0_1" = me +:+ "_" +:+ str_of_nat id /\
    0 <= id /\
    id < Alloc.next_local_id
           (Alloc.run taking_turns (Alloc.start 0 (Some "worker0") 2)) /\
    id < 0 + 2.
Proof.
  assert (Alloc.invocations
            (Alloc.run taking_turns (Alloc.start 0 (Some "worker0") 2)) !! 1
          = Some (Alloc.Returned "worker0_1")) as H1 by reflexivity.
  split; [exact H1|].
  exact (returned_values_are_in_range
           0 (Some "worker0") 2 taking_turns 1 "worker0_1" H1).
Defined.

Lemma allocator_never_deadlocks_witness :
  Alloc.invocations (Alloc.run [0; 1] (Alloc.start 0 (Some "worker0") 2)) !! 1
    = Some Alloc.AtAcquire /\
  finished Alloc.AtAcquire = false /\
  exists i,
    Alloc.step i (Alloc.run [0; 1] (Alloc.start 0 (Some "worker0") 2))
    <> Alloc.run [0; 1] (Alloc.start 0 (Some "worker0") 2).
Proof.
  assert (Alloc.invocations
            (Alloc.run [0; 1] (Alloc.start 0 (Some "worker0") 2)) !! 1
          = Some Alloc.AtAcquire) as H1 by reflexivity.
  assert (finished Alloc.AtAcquire = false) as Hfin by reflexivity.
  split; [exact H1|]. split; [exact Hfin|].
  exact (allocator_never_deadlocks
           0 (Some "worker0") 2 [0; 1] 1 Alloc.AtAcquire H1 Hfin).
Defined.

Lemma undisturbed_invocation_returns_witness :
  let p := Alloc.start 3 (Some "worker0") 2 in
  Alloc.invocations p !! 1 = Some Alloc.AtAcquire /\
  Alloc.lock p = None /\
  Alloc.agent p = Some "worker0" /\
  Alloc.run (replicate 6 1) p =
    Alloc.mkProc (Alloc.next_local_id p + 1) None (Some "worker0")
      (<[1 := Alloc.Returned
                ("worker0" +:+ "_" +:+ str_of_nat (Alloc.next_local_id p))]>
         (Alloc.invocations p)).
Proof.
  cbv zeta.
  assert (Alloc.invocations (Alloc.start 3 (Some "worker0") 2) !! 1
          = Some Alloc.AtAcquire) as Hpc by reflexivity.
  assert (Alloc.lock (Alloc.start 3 (Some "worker0") 2) = None)
    as Hlock by reflexivity.
  assert (Alloc.agent (Alloc.start 3 (Some "worker0") 2) = Some "worker0")
    as Hagent by reflexivity.
  split; [exact Hpc|]. split; [exact Hlock|]. split; [exact Hagent|].
  exact (undisturbed_invocation_returns
           1 (Alloc.start 3 (Some "worker0") 2) "worker0" Hpc Hlock Hagent).
Defined.

Lemma successive_constructions_send_different_names_witness :
  In sent_template (trace run_scriptable) /\
  In sent_second_template (trace run_second) /\
  "worker0_0" <> "worker0_1".
Proof.
  assert (In sent_template (trace run_scriptable)) as H1 by in_trace.
  assert (In sent_second_template (trace run_second)) as H2 by in_trace.
  split; [exact H1|]. split; [exact H2|].
  exact (successive_constructions_send_different_names
           "worker1" "worker1" create_script_module create_script_module
           None None None None None None (mesh0 true)
           _ _ _ _ _ _ _ _ _ _ H1 H2).
Defined.
